(** * migration-tool: the version-state machine of [migrate/migrate.py]

    A shallow embedding of [MigrationManager] (generate, migrate, downgrade,
    [_get_last_migration_number], [__generate_name], [__int_to_number]) and
    of the Python primitives these methods use, followed by the properties
    of the specification that concern them.

    Modelling conventions.
    - Python [str] is [string]; text is ASCII.  Python [int] is [Z].
    - The directory [VERSIONS_URI] is an association list (name, contents)
      in [os.listdir] order; every entry is a regular readable file.
    - The database is the [migrations] table (absent, or its rows in scan
      order) next to the rest of the database, of an arbitrary type [D];
      the SQL engine that runs a migration script is a parameter.
    - A method is a function from the world to an outcome (a value or a
      raised exception) and the world it leaves behind. *)

From Stdlib Require Import ZArith List String Ascii Bool Lia Sorted.
From Stdlib Require Import DecimalString DecimalPos.
Import ListNotations.

Local Open Scope string_scope.
Local Open Scope Z_scope.

(** ** Python primitives *)

Module Py.

(** [s[:n]]. *)
Definition take (n : nat) (s : string) : string := substring 0 n s.

(** [s.startswith(p)]. *)
Definition startswith (s p : string) : bool := prefix p s.

(** [s.endswith(p)]. *)
Definition endswith (s p : string) : bool :=
  (String.length p <=? String.length s)%nat
  && String.eqb (substring (String.length s - String.length p)
                           (String.length p) s) p.

(** [n * s] for a string [s]; a count that is not positive gives [""]. *)
Fixpoint repeat_nat (n : nat) (s : string) : string :=
  match n with
  | O => ""
  | S n' => s ++ repeat_nat n' s
  end.

Definition str_mul (n : Z) (s : string) : string := repeat_nat (Z.to_nat n) s.

(** [len(s)]. *)
Definition len (s : string) : Z := Z.of_nat (String.length s).

(** [str(i)] for an integer: decimal digits, ["-"] in front of a
    negative number. *)
Definition str (i : Z) : string := NilZero.string_of_int (Z.to_int i).

(** [s.replace(" ", "_")]. *)
Fixpoint replace_space (s : string) : string :=
  match s with
  | EmptyString => EmptyString
  | String c s' =>
      String (if Ascii.eqb c " "%char then "_"%char else c) (replace_space s')
  end.

(** The characters [int] strips from both ends: tab, line feed, vertical
    tab, form feed, carriage return, the separators 28 to 31 and space. *)
Definition is_space (c : ascii) : bool :=
  let n := nat_of_ascii c in
  ((9 <=? n) && (n <=? 13) || (28 <=? n) && (n <=? 32))%nat.

Definition is_digit (c : ascii) : bool :=
  let n := nat_of_ascii c in ((48 <=? n) && (n <=? 57))%nat.

Definition digit_val (c : ascii) : Z := Z.of_nat (nat_of_ascii c - 48).

Fixpoint lstrip (l : list ascii) : list ascii :=
  match l with
  | c :: l' => if is_space c then lstrip l' else l
  | [] => []
  end.

Definition strip (l : list ascii) : list ascii :=
  rev (lstrip (rev (lstrip l))).

(** The digits of an integer literal: groups of digits, one underscore
    allowed between two digits.  [after_digit] tells whether the previous
    character was a digit. *)
Fixpoint digits (acc : Z) (after_digit : bool) (l : list ascii) : option Z :=
  match l with
  | [] => if after_digit then Some acc else None
  | c :: l' =>
      if is_digit c then digits (10 * acc + digit_val c) true l'
      else if Ascii.eqb c "_"%char && after_digit then digits acc false l'
      else None
  end.

(** [int(s)] in base 10: [None] stands for [ValueError]. *)
Definition int (s : string) : option Z :=
  match strip (list_ascii_of_string s) with
  | "-"%char :: l => option_map Z.opp (digits 0 false l)
  | "+"%char :: l => digits 0 false l
  | l => digits 0 false l
  end.

(** [range(a, b)]. *)
Definition range (a b : Z) : list Z :=
  map (fun i => a + Z.of_nat i) (seq 0 (Z.to_nat (b - a))).

(** [range(a, b, -1)]. *)
Definition range_down (a b : Z) : list Z :=
  map (fun i => a - Z.of_nat i) (seq 0 (Z.to_nat (a - b))).

(** [max(l, key=...)] on a list paired with its keys: the first element
    whose key is maximal; [None] on the empty list. *)
Fixpoint max_by_key {A : Type} (l : list (A * Z)) : option (A * Z) :=
  match l with
  | [] => None
  | (x, k) :: l' =>
      match max_by_key l' with
      | Some (y, k') => if k' >? k then Some (y, k') else Some (x, k)
      | None => Some (x, k)
      end
  end.

End Py.

(** ** Outcomes, events and the world *)

(** The exceptions the methods can raise: [ValueError] from [int],
    [OSError] from [open], [PostgresError] from the connection, and the
    [Exception("Too many migrations")] of [__generate_name]. *)
Inductive exn : Type :=
| ValueError
| OSError
| PostgresError
| TooManyMigrations.

Inductive outcome (A : Type) : Type :=
| Ok (a : A)
| Raise (e : exn).

Arguments Ok {A} a.
Arguments Raise {A} e.

(** What a run does that an observer can see: a file opened and read, the
    statements sent inside a transaction block, and [logger.info] lines. *)
Inductive event : Type :=
| ERead (file_name : string)
| EBegin
| EExecute (sql : string)
| EUpdateVersion (version : string)
| ECommit
| ERollback
| EInfo (msg : string).

Definition PLACES : Z := 4.

(** [__int_to_number]. *)
Definition int_to_number (i : Z) : string :=
  Py.str_mul (PLACES - Py.len (Py.str i)) "0" ++ Py.str i.

Section Manager.

(** The database besides the [migrations] table. *)
Context {D : Type}.

Record database : Type := mkDb {
  migrations : option (list string);   (* None: the table does not exist *)
  payload : D
}.

(** The SQL engine on the text of a migration script: the database it
    leaves, or [None] when the script raises. *)
Variable run_sql : string -> database -> option database.

Record world : Type := mkWorld {
  files : list (string * string);   (* VERSIONS_URI, in listdir order *)
  db : database;
  now : string;                     (* datetime.now().strftime("%Y%m%d_%H%M") *)
  trace : list event
}.

Definition with_db (d : database) (w : world) : world :=
  mkWorld (files w) d (now w) (trace w).

Definition with_table (t : option (list string)) (w : world) : world :=
  with_db (mkDb t (payload (db w))) w.

Definition with_files (fs : list (string * string)) (w : world) : world :=
  mkWorld fs (db w) (now w) (trace w).

Definition emit (e : event) (w : world) : world :=
  mkWorld (files w) (db w) (now w) (trace w ++ [e])%list.

(** *** The monad of methods *)

Definition M (A : Type) : Type := world -> outcome A * world.

Definition ret {A : Type} (a : A) : M A := fun w => (Ok a, w).

Definition raise {A : Type} (e : exn) : M A := fun w => (Raise e, w).

Definition bind {A B : Type} (m : M A) (k : A -> M B) : M B :=
  fun w =>
    match m w with
    | (Ok a, w') => k a w'
    | (Raise e, w') => (Raise e, w')
    end.

Notation "x <- m ;; k" := (bind m (fun x => k))
  (at level 61, m at next level, right associativity).
Notation "m ;;; k" := (bind m (fun _ => k))
  (at level 61, right associativity).

Definition log (e : event) : M unit := fun w => (Ok tt, emit e w).

(** [logger.info(msg)]. *)
Definition info (msg : string) : M unit := log (EInfo msg).

(** [int(s)], raising [ValueError]. *)
Definition int (s : string) : M Z :=
  match Py.int s with
  | Some z => ret z
  | None => raise ValueError
  end.

(** [for x in l: body(x)]. *)
Fixpoint for_each {A : Type} (l : list A) (body : A -> M unit) : M unit :=
  match l with
  | [] => ret tt
  | x :: l' => body x ;;; for_each l' body
  end.

(** *** The directory *)

(** [os.listdir(path=self.versions_uri)]. *)
Definition listdir : M (list string) := fun w => (Ok (map fst (files w)), w).

Fixpoint lookup (name : string) (fs : list (string * string)) : option string :=
  match fs with
  | [] => None
  | (n, c) :: fs' => if String.eqb n name then Some c else lookup name fs'
  end.

(** [with open(os.path.join(self.versions_uri, file_name)) as f: f.read()]. *)
Definition read_file (file_name : string) : M string :=
  fun w =>
    match lookup file_name (files w) with
    | Some c => (Ok c, emit (ERead file_name) w)
    | None => (Raise OSError, w)
    end.

(** A name that addresses an entry of the directory itself: no path
    separator and no NUL in it. *)
Fixpoint plain_name (s : string) : bool :=
  match s with
  | EmptyString => true
  | String c s' =>
      negb (Ascii.eqb c "/"%char) && negb (Ascii.eqb c zero) && plain_name s'
  end.

(** [open(os.path.join(self.versions_uri, name), "a").close()]: an
    existing file is left as it is, a new one is created empty. *)
Definition touch (name : string) : M unit :=
  fun w =>
    if plain_name name then
      match lookup name (files w) with
      | Some _ => (Ok tt, w)
      | None => (Ok tt, with_files (files w ++ [(name, "")])%list w)
      end
    else (Raise OSError, w).

(** *** The connection *)

(** [conn.execute(MIGRATIONS_TABLE)]: CREATE TABLE IF NOT EXISTS. *)
Definition execute_MIGRATIONS_TABLE : M unit :=
  fun w =>
    match migrations (db w) with
    | None => (Ok tt, with_table (Some []) w)
    | Some _ => (Ok tt, w)
    end.

(** [conn.fetchrow(CURRENT_VERSION)]: the first row, or [None]. *)
Definition fetchrow_CURRENT_VERSION : M (option string) :=
  fun w =>
    match migrations (db w) with
    | None => (Raise PostgresError, w)
    | Some [] => (Ok None, w)
    | Some (v :: _) => (Ok (Some v), w)
    end.

(** [conn.execute(INIT_VERSION)]: the column is a primary key. *)
Definition execute_INIT_VERSION : M unit :=
  fun w =>
    match migrations (db w) with
    | None => (Raise PostgresError, w)
    | Some rows =>
        if existsb (String.eqb "0000") rows then (Raise PostgresError, w)
        else (Ok tt, with_table (Some (rows ++ ["0000"])%list) w)
    end.

(** The [migrations] table after [UPDATE migrations SET version = $1]:
    every row gets the value, which must fit VARCHAR(4) and stay unique. *)
Definition update_rows (v : string) (rows : list string) : option (list string) :=
  match rows with
  | [] => Some []
  | [_] => if (String.length v <=? 4)%nat then Some [v] else None
  | _ :: _ :: _ => None
  end.

(** [conn.execute(UPDATE_VERSION, v)]. *)
Definition execute_UPDATE_VERSION (v : string) : M unit :=
  fun w =>
    let w1 := emit (EUpdateVersion v) w in
    match migrations (db w) with
    | None => (Raise PostgresError, w1)
    | Some rows =>
        match update_rows v rows with
        | Some rows' => (Ok tt, with_table (Some rows') w1)
        | None => (Raise PostgresError, w1)
        end
    end.

(** [conn.execute(sql)] on the text of a script. *)
Definition execute (sql : string) : M unit :=
  fun w =>
    let w1 := emit (EExecute sql) w in
    match run_sql sql (db w) with
    | Some d => (Ok tt, with_db d w1)
    | None => (Raise PostgresError, w1)
    end.

(** [async with self.conn.transaction(): body]: committed when the body
    returns, rolled back to the database of the start when it raises;
    the exception goes on to the caller. *)
Definition transaction (body : M unit) : M unit :=
  fun w =>
    match body (emit EBegin w) with
    | (Ok _, w') => (Ok tt, emit ECommit w')
    | (Raise e, w') => (Raise e, emit ERollback (with_db (db w) w'))
    end.

(** *** MigrationManager *)

Definition __create_migrations_table : M unit := execute_MIGRATIONS_TABLE.

Definition _get_last_migration_number : M string :=
  __create_migrations_table ;;;
  row <- fetchrow_CURRENT_VERSION ;;
  match row with
  | None => execute_INIT_VERSION
  | Some _ => ret tt
  end ;;;
  ret (match row with Some version => version | None => "0000" end).

(** The two list-building loops of [migrate] and [downgrade]: for every
    id, the entries of the directory that start with it and end with
    [suffix], in listing order. *)
Fixpoint select_files (suffix : string) (file_ids : list string)
  : M (list string) :=
  match file_ids with
  | [] => ret []
  | i :: ids =>
      names <- listdir ;;
      more <- select_files suffix ids ;;
      ret (filter (fun f => Py.startswith f i && Py.endswith f suffix) names
             ++ more)%list
  end.

(** The body of the last loop of [migrate]. *)
Definition upgrade_step (file_name : string) : M unit :=
  sql <- read_file file_name ;;
  transaction
    (execute sql ;;;
     execute_UPDATE_VERSION (Py.take (Z.to_nat PLACES) file_name)) ;;;
  info ("migration " ++ file_name ++ " executed successfully").

Definition migrate (migration_number : string) : M unit :=
  last_migration_number <- _get_last_migration_number ;;
  lo <- int last_migration_number ;;
  hi <- int migration_number ;;
  let file_ids := map int_to_number (Py.range (lo + 1) (hi + 1)) in
  file_names <- select_files "_upgrade.sql" file_ids ;;
  for_each file_names upgrade_step.

(** The body of the last loop of [downgrade]. *)
Definition downgrade_step (file_name : string) : M unit :=
  sql <- read_file file_name ;;
  n <- int (Py.take (Z.to_nat PLACES) file_name) ;;
  let new_version := int_to_number (n - 1) in
  transaction (execute sql ;;; execute_UPDATE_VERSION new_version) ;;;
  info ("successfully executed " ++ file_name).

Definition downgrade (migration_number : string) : M unit :=
  current_version <- _get_last_migration_number ;;
  hi <- int current_version ;;
  lo <- int migration_number ;;
  let file_ids := map int_to_number (Py.range_down hi lo) in
  file_names <- select_files "_downgrade.sql" file_ids ;;
  for_each file_names downgrade_step.

(** [max(files, key=lambda x: int(x[:PLACES]))]: the key of every file is
    computed, in order. *)
Fixpoint keyed (l : list string) : M (list (string * Z)) :=
  match l with
  | [] => ret []
  | x :: l' =>
      k <- int (Py.take (Z.to_nat PLACES) x) ;;
      ks <- keyed l' ;;
      ret ((x, k) :: ks)
  end.

Definition __generate_name (migration_name : option string) : M string :=
  names <- listdir ;;
  let files := filter (fun f => Py.endswith f ".sql") names in
  if (List.length files =? 0)%nat then ret "0001_initial"
  else
    label <- match migration_name with
             | None | Some EmptyString =>
                 fun w => (Ok ("auto_" ++ now w), w)
             | Some name => ret (Py.replace_space name)
             end ;;
    ks <- keyed files ;;
    match Py.max_by_key ks with
    | None => raise ValueError      (* max() of an empty list *)
    | Some (previous_filename, _) =>
        n <- int (Py.take (Z.to_nat PLACES) previous_filename) ;;
        let number := n + 1 in
        ceiling <- int (Py.str_mul PLACES "9") ;;
        if number >? ceiling then raise TooManyMigrations
        else ret (int_to_number number ++ "_" ++ label)
    end.

Definition generate (migration_name : option string) : M unit :=
  filename <- __generate_name migration_name ;;
  touch (filename ++ "_upgrade.sql") ;;;
  touch (filename ++ "_downgrade.sql") ;;;
  info "migration file generated successfully".

(** *** Vocabulary of the properties *)

(** The listing of the directory. *)
Definition names (w : world) : list string := map fst (files w).

(** What [select_files] collects from a listing. *)
Definition selected (suffix : string) (listing file_ids : list string)
  : list string :=
  flat_map
    (fun i => filter (fun f => Py.startswith f i && Py.endswith f suffix) listing)
    file_ids.

(** The work list of [migrate] from version [current] to [target]. *)
Definition upgrade_files (w : world) (current target : Z) : list string :=
  selected "_upgrade.sql" (names w)
    (map int_to_number (Py.range (current + 1) (target + 1))).

(** The work list of [downgrade] from version [current] to [target]. *)
Definition downgrade_files (w : world) (current target : Z) : list string :=
  selected "_downgrade.sql" (names w)
    (map int_to_number (Py.range_down current target)).

(** The integer value of the first [PLACES] characters of a file name. *)
Definition version_of (file_name : string) : option Z :=
  Py.int (Py.take (Z.to_nat PLACES) file_name).

Definition contents (fs : list (string * string)) (file_name : string)
  : string :=
  match lookup file_name fs with
  | Some c => c
  | None => ""
  end.

(** The version [downgrade_step] writes for a file. *)
Definition version_below (file_name : string) : string :=
  match version_of file_name with
  | Some n => int_to_number (n - 1)
  | None => ""
  end.

(** The events of a step of [migrate] that commits. *)
Definition upgrade_events (fs : list (string * string)) (f : string)
  : list event :=
  [ERead f; EBegin; EExecute (contents fs f);
   EUpdateVersion (Py.take (Z.to_nat PLACES) f); ECommit;
   EInfo ("migration " ++ f ++ " executed successfully")].

(** The events of a step of [downgrade] that commits. *)
Definition downgrade_events (fs : list (string * string)) (f : string)
  : list event :=
  [ERead f; EBegin; EExecute (contents fs f);
   EUpdateVersion (version_below f); ECommit;
   EInfo ("successfully executed " ++ f)].

(** The files [__generate_name] looks at. *)
Definition sql_files (w : world) : list string :=
  filter (fun f => Py.endswith f ".sql") (names w).

(** The label [__generate_name] gives a migration. *)
Definition resolve_label (migration_name : option string) (w : world) : string :=
  match migration_name with
  | None | Some EmptyString => "auto_" ++ now w
  | Some name => Py.replace_space name
  end.


(** The transaction block of a step, in closed form: the script [sql] of
    file [f] is executed and the version [v] written; [msg] is the line
    logged after the commit.  [upgrade_step_eq] and [downgrade_step_eq]
    relate it to the two loop bodies. *)
Definition transact (w : world) (f sql v msg : string) : outcome unit * world :=
  match run_sql sql (db w) with
  | None =>
      (Raise PostgresError,
       mkWorld (files w) (db w) (now w)
         (trace w ++ [ERead f; EBegin; EExecute sql; ERollback])%list)
  | Some d' =>
      match option_map (update_rows v) (migrations d') with
      | Some (Some rows') =>
          (Ok tt,
           mkWorld (files w) (mkDb (Some rows') (payload d')) (now w)
             (trace w ++ [ERead f; EBegin; EExecute sql; EUpdateVersion v;
                          ECommit; EInfo msg])%list)
      | _ =>
          (Raise PostgresError,
           mkWorld (files w) (db w) (now w)
             (trace w ++ [ERead f; EBegin; EExecute sql; EUpdateVersion v;
                          ERollback])%list)
      end
  end.

(** The transaction of a step fails: the script raises, or the version
    update after it does. *)
Definition fails_in_transaction (sql v : string) (d : database) : Prop :=
  match run_sql sql d with
  | None => True
  | Some d' =>
      match option_map (update_rows v) (migrations d') with
      | Some (Some _) => False
      | _ => True
      end
  end.

(** The events of a step whose transaction fails. *)
Definition failure_events (f sql v : string) (evs : list event) : Prop :=
  evs = [ERead f; EBegin; EExecute sql; ERollback]
  \/ evs = [ERead f; EBegin; EExecute sql; EUpdateVersion v; ERollback].

(** The schema contract: the table holds exactly one row. *)
Definition one_row (d : database) : Prop :=
  exists v, migrations d = Some [v].

(** The table is absent, empty or holds one row. *)
Definition at_most_one_row (d : database) : Prop :=
  match migrations d with
  | Some (_ :: _ :: _) => False
  | _ => True
  end.







End Manager.


(** ** An in-memory engine for the scenarios

    The rest of the database is the list of the scripts executed so far; a
    script whose text starts with RAISE fails. *)

Module Toy.

Definition engine (sql : string) (d : @database (list string))
  : option (@database (list string)) :=
  if Py.startswith sql "RAISE" then None
  else Some (mkDb (migrations d) (payload d ++ [sql])%list).

Definition world_of (fs : list (string * string)) (t : option (list string))
  : @world (list string) :=
  mkWorld fs (mkDb t []) "20240101_1200" [].

Definition three_pairs : list (string * string) :=
  [("0001_a_upgrade.sql", "U1"); ("0001_a_downgrade.sql", "D1");
   ("0002_b_upgrade.sql", "U2"); ("0002_b_downgrade.sql", "D2");
   ("0003_c_upgrade.sql", "U3"); ("0003_c_downgrade.sql", "D3")].

(** The upgrade of version 0002 raises. *)
Definition broken_upgrade : list (string * string) :=
  [("0001_a_upgrade.sql", "U1"); ("0002_b_upgrade.sql", "RAISE EXCEPTION");
   ("0003_c_upgrade.sql", "U3")].

(** The downgrade of version 0002 raises. *)
Definition broken_downgrade : list (string * string) :=
  [("0001_a_downgrade.sql", "D1"); ("0002_b_downgrade.sql", "RAISE EXCEPTION");
   ("0003_c_downgrade.sql", "D3")].



Definition up_to_9999 : list (string * string) :=
  [("9999_z_upgrade.sql", ""); ("9999_z_downgrade.sql", "")].



(** An SQL file that is no migration. *)
Definition stray_sql : list (string * string) :=
  [("0001_a_upgrade.sql", ""); ("0001_a_downgrade.sql", ""); ("readme.sql", "")].


End Toy.

(** ** The primitives on examples *)

Example int_examples :
  Py.int "0042" = Some 42 /\ Py.int "-001" = Some (-1) /\ Py.int " 12 " = Some 12
  /\ Py.int "1_23" = Some 123 /\ Py.int "12_a" = None /\ Py.int "" = None
  /\ Py.int "1__2" = None /\ Py.int "+" = None /\ Py.int "10000" = Some 10000.
Proof. repeat split; reflexivity. Qed.

Example str_examples :
  Py.str 0 = "0" /\ Py.str 42 = "42" /\ Py.str (-7) = "-7" /\ Py.str 10000 = "10000".
Proof. repeat split; reflexivity. Qed.

Example endswith_examples :
  Py.endswith "0001_a_upgrade.sql" "_upgrade.sql" = true
  /\ Py.endswith "0001_a_downgrade.sql" "_upgrade.sql" = false
  /\ Py.endswith "sql" ".sql" = false
  /\ Py.startswith "0001_a_upgrade.sql" "0001" = true
  /\ Py.startswith "001" "0001" = false
  /\ Py.take 4 "0001_a_upgrade.sql" = "0001".
Proof. repeat split; reflexivity. Qed.

Example int_to_number_examples :
  int_to_number 1 = "0001" /\ int_to_number 43 = "0043"
  /\ int_to_number 9999 = "9999" /\ int_to_number 10000 = "10000"
  /\ int_to_number 0 = "0000" /\ int_to_number (-1) = "00-1".
Proof. repeat split; reflexivity. Qed.

(** ** Ranges, version numbers and file names *)

Lemma in_range (a b k : Z) : In k (Py.range a b) <-> a <= k < b.
Proof.
  unfold Py.range. rewrite in_map_iff. split.
  - intros (i & <- & Hi). apply in_seq in Hi. lia.
  - intros Hk. exists (Z.to_nat (k - a)). split; [lia|].
    apply in_seq. lia.
Qed.


Lemma range_empty (a b : Z) : b <= a -> Py.range a b = [].
Proof. intros H. unfold Py.range. replace (Z.to_nat (b - a)) with O by lia. reflexivity. Qed.

Lemma range_down_empty (a b : Z) : a <= b -> Py.range_down a b = [].
Proof. intros H. unfold Py.range_down. replace (Z.to_nat (a - b)) with O by lia. reflexivity. Qed.



(** A boolean property checked on a whole range holds at each of its points. *)
Lemma forall_range (P : Z -> bool) (lo hi : Z) :
  forallb P (Py.range lo (hi + 1)) = true ->
  forall k, lo <= k <= hi -> P k = true.
Proof.
  intros H k Hk. rewrite forallb_forall in H. apply H, in_range. lia.
Qed.





Lemma take_length (n : nat) (s : string) : (String.length (Py.take n s) <= n)%nat.
Proof.
  unfold Py.take. revert s. induction n as [|n IH]; intros [|c s]; simpl; try lia.
  specialize (IH s). lia.
Qed.


Lemma in_selected (suffix : string) (listing ids : list string) (f : string) :
  In f (selected suffix listing ids) <->
  In f listing /\ Py.endswith f suffix = true
  /\ exists i, In i ids /\ Py.startswith f i = true.
Proof.
  unfold selected. rewrite in_flat_map. split.
  - intros (i & Hi & Hf). apply filter_In in Hf. destruct Hf as [Hf Hb].
    apply andb_true_iff in Hb. destruct Hb. eauto 6.
  - intros (Hf & He & i & Hi & Hs). exists i. split; [assumption|].
    apply filter_In. split; [assumption|]. now rewrite Hs, He.
Qed.


(** ** Strings *)

Lemma append_length (a b : string) :
  String.length (a ++ b) = (String.length a + String.length b)%nat.
Proof. induction a as [|c a IH]; simpl; [reflexivity|now rewrite IH]. Qed.


Lemma substring_all (s : string) : substring 0 (String.length s) s = s.
Proof. induction s as [|c s IH]; simpl; [reflexivity|now rewrite IH]. Qed.

Lemma substring_skip (a b : string) (m : nat) :
  substring (String.length a) m (a ++ b) = substring 0 m b.
Proof. induction a as [|c a IH]; simpl; [reflexivity|assumption]. Qed.

Lemma substring_prefix (a b : string) :
  substring 0 (String.length a) (a ++ b) = a.
Proof.
  induction a as [|c a IH]; simpl.
  - now destruct b.
  - now rewrite IH.
Qed.

Lemma endswith_append (a p : string) : Py.endswith (a ++ p) p = true.
Proof.
  unfold Py.endswith. rewrite append_length.
  replace (String.length a + String.length p - String.length p)%nat
    with (String.length a) by lia.
  rewrite substring_skip, substring_all, String.eqb_refl.
  apply andb_true_iff. split; [apply Nat.leb_le; lia|reflexivity].
Qed.

Lemma take_append (a b : string) :
  String.length a = 4%nat -> Py.take (Z.to_nat PLACES) (a ++ b) = a.
Proof.
  intros L. unfold Py.take. change (Z.to_nat PLACES) with 4%nat.
  rewrite <- L. apply substring_prefix.
Qed.




Lemma wide_versions :
  forall k, -998 <= k <= 9999 -> (String.length (int_to_number k) =? 4)%nat = true.
Proof. apply forall_range. vm_compute. reflexivity. Qed.

(** *** The range of [int] on short strings *)

Lemma digit_val_bound (c : ascii) : Py.is_digit c = true -> 0 <= Py.digit_val c <= 9.
Proof.
  unfold Py.is_digit, Py.digit_val. intros H.
  apply andb_true_iff in H. destruct H as [H1 H2].
  apply Nat.leb_le in H1, H2. lia.
Qed.

Lemma digits_bound (l : list ascii) :
  forall acc b n,
    0 <= acc -> Py.digits acc b l = Some n ->
    0 <= n < (acc + 1) * 10 ^ Z.of_nat (List.length l).
Proof.
  induction l as [|c l IH]; intros acc b n Hacc H; cbn [Py.digits] in H.
  - destruct b; [|discriminate]. inversion H. subst. simpl. lia.
  - assert (P : 0 < 10 ^ Z.of_nat (List.length l)) by (apply Z.pow_pos_nonneg; lia).
    replace (Z.of_nat (List.length (c :: l)))
      with (Z.succ (Z.of_nat (List.length l))) by (simpl; lia).
    rewrite Z.pow_succ_r by lia.
    remember (10 ^ Z.of_nat (List.length l)) as X eqn:EX.
    destruct (Py.is_digit c) eqn:Ed.
    + apply digit_val_bound in Ed. apply IH in H; [|lia].
      assert ((10 * acc + Py.digit_val c + 1) * X <= (acc + 1) * (10 * X)).
      { replace ((acc + 1) * (10 * X)) with ((10 * acc + 10) * X) by ring.
        apply Z.mul_le_mono_nonneg_r; lia. }
      lia.
    + destruct (Ascii.eqb c "_" && b); [|discriminate].
      apply IH in H; [|lia].
      assert ((acc + 1) * X <= (acc + 1) * (10 * X)).
      { apply Z.mul_le_mono_nonneg_l; lia. }
      lia.
Qed.

Lemma lstrip_length (l : list ascii) :
  (List.length (Py.lstrip l) <= List.length l)%nat.
Proof.
  induction l as [|c l IH]; simpl; [lia|].
  destruct (Py.is_space c); simpl; lia.
Qed.

Lemma strip_length (l : list ascii) :
  (List.length (Py.strip l) <= List.length l)%nat.
Proof.
  unfold Py.strip. rewrite length_rev.
  etransitivity; [apply lstrip_length|]. rewrite length_rev.
  apply lstrip_length.
Qed.

Lemma list_ascii_length (s : string) :
  List.length (list_ascii_of_string s) = String.length s.
Proof. induction s as [|c s IH]; simpl; [reflexivity|now rewrite IH]. Qed.

(** An integer read from at most four characters lies in -999..9999. *)
Lemma int_short (s : string) (n : Z) :
  (String.length s <= 4)%nat -> Py.int s = Some n -> -999 <= n <= 9999.
Proof.
  intros L H. unfold Py.int in H.
  pose proof (strip_length (list_ascii_of_string s)) as Hs.
  rewrite list_ascii_length in Hs.
  assert (Hpow : forall m : nat, (m <= 4)%nat -> 10 ^ Z.of_nat m <= 10000).
  { intros m Hm. change 10000 with (10 ^ 4).
    apply Z.pow_le_mono_r; lia. }
  assert (Hpow3 : forall m : nat, (m <= 3)%nat -> 10 ^ Z.of_nat m <= 1000).
  { intros m Hm. change 1000 with (10 ^ 3).
    apply Z.pow_le_mono_r; lia. }
  assert (Hgen : forall l, (List.length l <= 4)%nat ->
                   Py.digits 0 false l = Some n -> -999 <= n <= 9999).
  { intros l Hl Hd. apply digits_bound in Hd; [|lia].
    specialize (Hpow _ Hl). lia. }
  destruct (Py.strip (list_ascii_of_string s)) as [|c l] eqn:E.
  - apply Hgen in H; simpl; lia.
  - assert (Hl : (List.length l <= 3)%nat) by (simpl in Hs; lia).
    assert (Hcons : (List.length (c :: l) <= 4)%nat) by (simpl; lia).
    assert (Hsign : forall m, Py.digits 0 false l = Some m -> 0 <= m <= 999).
    { intros m Hd. apply digits_bound in Hd; [|lia].
      specialize (Hpow3 _ Hl). lia. }
    destruct c as [[] [] [] [] [] [] [] []];
      try (apply (Hgen _ Hcons) in H; exact H).
    + apply Hsign in H. lia.
    + destruct (Py.digits 0 false l) as [m|] eqn:Ed; [|discriminate].
      simpl in H. inversion H. specialize (Hsign m eq_refl). lia.
Qed.

Lemma version_of_bound (f : string) (n : Z) :
  version_of f = Some n -> -999 <= n <= 9999.
Proof.
  unfold version_of. apply int_short. apply take_length.
Qed.

(** ** The methods in closed form *)

Section Properties.

Context {D : Type}.
Variable run_sql : string -> @database D -> option (@database D).

Local Abbreviation world := (@world D).

Lemma world_eta (w : world) : mkWorld (files w) (db w) (now w) (trace w) = w.
Proof. now destruct w. Qed.

Lemma get_last_eq (w : world) :
  _get_last_migration_number w
  = match migrations (db w) with
    | Some (v :: _) => (Ok v, w)
    | _ => (Ok "0000", with_table (Some ["0000"]) w)
    end.
Proof.
  unfold _get_last_migration_number, __create_migrations_table, bind,
    execute_MIGRATIONS_TABLE, fetchrow_CURRENT_VERSION, execute_INIT_VERSION, ret.
  destruct (migrations (db w)) as [[|v rows]|] eqn:E; simpl; rewrite ?E; reflexivity.
Qed.

Lemma select_files_eq (suffix : string) (ids : list string) (w : world) :
  select_files suffix ids w = (Ok (selected suffix (names w) ids), w).
Proof.
  induction ids as [|i ids IH]; [reflexivity|].
  simpl. unfold bind, listdir at 1. rewrite IH. reflexivity.
Qed.

Lemma upgrade_step_eq (f : string) (w : world) :
  upgrade_step run_sql f w
  = match lookup f (files w) with
    | None => (Raise OSError, w)
    | Some sql =>
        transact run_sql w f sql (Py.take (Z.to_nat PLACES) f)
          ("migration " ++ f ++ " executed successfully")
    end.
Proof.
  unfold upgrade_step, transact, bind, read_file,
    transaction, execute, execute_UPDATE_VERSION, info, log.
  destruct (lookup f (files w)) as [sql|]; [|reflexivity]. simpl.
  destruct (run_sql sql (db w)) as [d'|]; simpl.
  - destruct (migrations d') as [rows|]; simpl.
    + destruct (update_rows _ rows); simpl; unfold emit, with_table, with_db;
        simpl; repeat rewrite <- app_assoc; reflexivity.
    + unfold emit, with_db; simpl; repeat rewrite <- app_assoc; reflexivity.
  - unfold emit, with_db; simpl; repeat rewrite <- app_assoc; reflexivity.
Qed.

Lemma downgrade_step_eq (f : string) (w : world) :
  downgrade_step run_sql f w
  = match lookup f (files w) with
    | None => (Raise OSError, w)
    | Some sql =>
        match version_of f with
        | None => (Raise ValueError, emit (ERead f) w)
        | Some n =>
            transact run_sql w f sql (int_to_number (n - 1))
              ("successfully executed " ++ f)
        end
    end.
Proof.
  unfold downgrade_step, transact, bind, read_file,
    transaction, execute, execute_UPDATE_VERSION, info, log, int, version_of.
  destruct (lookup f (files w)) as [sql|]; [|reflexivity]. simpl.
  destruct (Py.int _) as [n|]; [|reflexivity]. simpl.
  destruct (run_sql sql (db w)) as [d'|]; simpl.
  - destruct (migrations d') as [rows|]; simpl.
    + destruct (update_rows _ rows); simpl; unfold emit, with_table, with_db;
        simpl; repeat rewrite <- app_assoc; reflexivity.
    + unfold emit, with_db; simpl; repeat rewrite <- app_assoc; reflexivity.
  - unfold emit, with_db; simpl; repeat rewrite <- app_assoc; reflexivity.
Qed.

Lemma for_each_app {A : Type} (body : A -> M unit) (l1 l2 : list A) :
  forall w w1 : world,
    for_each l1 body w = (Ok tt, w1) ->
    for_each (l1 ++ l2) body w = for_each l2 body w1.
Proof.
  induction l1 as [|x l1 IH]; intros w w1 H; simpl in *.
  - unfold ret in H. now inversion H.
  - unfold bind in *. destruct (body x w) as [[[]|e] w2]; [|discriminate].
    now apply IH.
Qed.

Lemma for_each_raise {A : Type} (body : A -> M unit) (x : A) (l : list A)
      (w w' : world) (e : exn) :
  body x w = (Raise e, w') -> for_each (x :: l) body w = (Raise e, w').
Proof. intros H. simpl. unfold bind. now rewrite H. Qed.

Lemma lookup_in (f : string) (fs : list (string * string)) :
  In f (map fst fs) -> exists c, lookup f fs = Some c.
Proof.
  induction fs as [|[n c] fs IH]; simpl; [tauto|].
  intros [<-|H].
  - rewrite String.eqb_refl. eauto.
  - destruct (String.eqb n f); eauto.
Qed.

Lemma lookup_contents (f c : string) (fs : list (string * string)) :
  lookup f fs = Some c -> contents fs f = c.
Proof. unfold contents. now intros ->. Qed.

(** *** The transaction of a step *)


Lemma transact_ok_inv (w w' : world) (f sql v msg : string) :
  transact run_sql w f sql v msg = (Ok tt, w') ->
  files w' = files w /\ now w' = now w
  /\ trace w' = (trace w ++ [ERead f; EBegin; EExecute sql; EUpdateVersion v;
                             ECommit; EInfo msg])%list.
Proof.
  unfold transact. destruct (run_sql sql (db w)) as [d'|]; [|discriminate].
  destruct (option_map _ _) as [[rows|]|]; try discriminate.
  intros H. inversion H. subst. simpl. auto.
Qed.

Lemma transact_fails (w : world) (f sql v msg : string) :
  fails_in_transaction run_sql sql v (db w) ->
  exists evs,
    failure_events f sql v evs
    /\ transact run_sql w f sql v msg
       = (Raise PostgresError,
          mkWorld (files w) (db w) (now w) (trace w ++ evs)).
Proof.
  unfold fails_in_transaction, transact, failure_events.
  destruct (run_sql sql (db w)) as [d'|].
  - destruct (option_map _ _) as [[rows|]|]; [tauto| |]; intros _; eauto.
  - intros _. eauto.
Qed.

(** *** Runs of the loops *)


(** What a run of the last loop of [migrate] that returns has logged. *)
Lemma upgrade_run_inv (l : list string) :
  forall w w' : world,
    for_each l (upgrade_step run_sql) w = (Ok tt, w') ->
    files w' = files w /\ now w' = now w
    /\ trace w' = (trace w ++ flat_map (upgrade_events (files w)) l)%list.
Proof.
  induction l as [|f l IH]; intros w w' H; simpl in H.
  - unfold ret in H. inversion H. subst. simpl. now rewrite app_nil_r.
  - unfold bind in H.
    destruct (upgrade_step run_sql f w) as [[[]|e] w1] eqn:Hstep; [|discriminate].
    rewrite upgrade_step_eq in Hstep.
    destruct (lookup f (files w)) as [sql|] eqn:Hsql; [|discriminate].
    apply transact_ok_inv in Hstep. destruct Hstep as (Hf1 & Hn1 & Ht1).
    apply IH in H. destruct H as (Hf & Hn & Ht).
    rewrite Hf, Hn, Ht, Hf1, Hn1, Ht1. repeat split.
    simpl. unfold upgrade_events at 2.
    rewrite (lookup_contents _ _ _ Hsql), <- app_assoc. reflexivity.
Qed.


Lemma downgrade_run_inv (l : list string) :
  forall w w' : world,
    for_each l (downgrade_step run_sql) w = (Ok tt, w') ->
    files w' = files w /\ now w' = now w
    /\ trace w' = (trace w ++ flat_map (downgrade_events (files w)) l)%list.
Proof.
  induction l as [|f l IH]; intros w w' H; simpl in H.
  - unfold ret in H. inversion H. subst. simpl. now rewrite app_nil_r.
  - unfold bind in H.
    destruct (downgrade_step run_sql f w) as [[[]|e] w1] eqn:Hstep; [|discriminate].
    rewrite downgrade_step_eq in Hstep.
    destruct (lookup f (files w)) as [sql|] eqn:Hsql; [|discriminate].
    destruct (version_of f) as [n|] eqn:Hn; [|discriminate].
    apply transact_ok_inv in Hstep. destruct Hstep as (Hf1 & Hn1 & Ht1).
    apply IH in H. destruct H as (Hf & Hnow & Ht).
    rewrite Hf, Hnow, Ht, Hf1, Hn1, Ht1. repeat split.
    simpl. unfold downgrade_events at 2, version_below.
    rewrite (lookup_contents _ _ _ Hsql), Hn, <- app_assoc. reflexivity.
Qed.

(** *** The two methods, up to their last loop *)

Lemma migrate_eq (target v : string) (C T : Z) (w w1 : world) :
  _get_last_migration_number w = (Ok v, w1) ->
  Py.int v = Some C -> Py.int target = Some T ->
  migrate run_sql target w
  = for_each (upgrade_files w1 C T) (upgrade_step run_sql) w1.
Proof.
  intros G HC HT. unfold migrate, bind. rewrite G.
  unfold int. rewrite HC, HT. unfold ret.
  rewrite select_files_eq. reflexivity.
Qed.

Lemma downgrade_eq (target v : string) (C T : Z) (w w1 : world) :
  _get_last_migration_number w = (Ok v, w1) ->
  Py.int v = Some C -> Py.int target = Some T ->
  downgrade run_sql target w
  = for_each (downgrade_files w1 C T) (downgrade_step run_sql) w1.
Proof.
  intros G HC HT. unfold downgrade, bind. rewrite G.
  unfold int. rewrite HC, HT. unfold ret.
  rewrite select_files_eq. reflexivity.
Qed.

(** The version read leaves the directory, the clock and the trace as
    they are, and a table with exactly one row when there was at most one. *)
Lemma get_last_frame (w w1 : world) (v : string) :
  _get_last_migration_number w = (Ok v, w1) ->
  files w1 = files w /\ now w1 = now w /\ trace w1 = trace w
  /\ payload (db w1) = payload (db w)
  /\ (at_most_one_row (db w) -> migrations (db w1) = Some [v]).
Proof.
  rewrite get_last_eq. unfold at_most_one_row.
  destruct (migrations (db w)) as [[|v0 [|v1 rows]]|] eqn:E;
    intros H; inversion H; subst; simpl; rewrite ?E; tauto.
Qed.

(** *** The work lists *)















(** ** The version store *)

(** C5: every call of [_get_last_migration_number] first creates the
    [migrations] table if it is absent, and creating it again changes
    nothing; then, if the table has no row, the row "0000" is inserted,
    "0000" is returned and the table holds exactly that one row, the rest
    of the world being as before; if the table has a row, the value of its
    first row is returned and the world is left exactly as it was (no row
    inserted or modified). *)
Theorem get_last_migration_number_read_with_init (w : world) :
  (exists w0,
      __create_migrations_table w = (Ok tt, w0)
      /\ __create_migrations_table w0 = (Ok tt, w0)
      /\ migrations (db w0)
         = Some (match migrations (db w) with Some rows => rows | None => [] end)
      /\ _get_last_migration_number w = _get_last_migration_number w0)
  /\ match migrations (db w) with
     | Some (v :: _) => _get_last_migration_number w = (Ok v, w)
     | _ =>
         exists w',
           _get_last_migration_number w = (Ok "0000", w')
           /\ migrations (db w') = Some ["0000"]
           /\ payload (db w') = payload (db w)
           /\ files w' = files w /\ now w' = now w /\ trace w' = trace w
     end.
Proof.
  split.
  - unfold __create_migrations_table, execute_MIGRATIONS_TABLE.
    rewrite get_last_eq.
    destruct (migrations (db w)) as [rows|] eqn:E.
    + exists w. rewrite E. rewrite get_last_eq, E. auto.
    + exists (with_table (Some []) w). simpl. rewrite get_last_eq. simpl. auto.
  - rewrite get_last_eq.
    destruct (migrations (db w)) as [[|v rows]|]; try reflexivity;
      eexists; split; try reflexivity; simpl; auto.
Qed.

(** ** No-op runs *)

(** C4: let [v] be the version that [_get_last_migration_number] reads,
    of integer value [C].  [migrate] with a target [T <= C] and [downgrade]
    with a target [T' >= C] return normally in the world [w1] that this
    version read alone leaves: the directory, the trace (no file read, no
    statement executed) and the rest of the database are those of the
    start, the version read again is [v], and when a row was stored at the
    start the whole world is unchanged. *)
Theorem no_op_when_target_reached
        (up_target down_target v : string) (C T T' : Z) (w w1 : world) :
  _get_last_migration_number w = (Ok v, w1) ->
  Py.int v = Some C ->
  Py.int up_target = Some T -> T <= C ->
  Py.int down_target = Some T' -> C <= T' ->
  migrate run_sql up_target w = (Ok tt, w1)
  /\ downgrade run_sql down_target w = (Ok tt, w1)
  /\ files w1 = files w /\ trace w1 = trace w
  /\ payload (db w1) = payload (db w)
  /\ _get_last_migration_number w1 = (Ok v, w1)
  /\ (forall v0 rows, migrations (db w) = Some (v0 :: rows) -> w1 = w /\ v0 = v).
Proof.
  intros G HC HT Hle HT' Hge.
  split; [|split].
  - rewrite (migrate_eq _ _ _ _ _ _ G HC HT).
    unfold upgrade_files. rewrite range_empty by lia. reflexivity.
  - rewrite (downgrade_eq _ _ _ _ _ _ G HC HT').
    unfold downgrade_files. rewrite range_down_empty by lia. reflexivity.
  - destruct (get_last_frame _ _ _ G) as (Hf & _ & Ht & Hp & _).
    repeat split; try assumption.
    + rewrite get_last_eq in G. rewrite get_last_eq.
      destruct (migrations (db w)) as [[|v0 rows]|] eqn:E;
        inversion G; subst; simpl; rewrite ?E; reflexivity.
    + rewrite get_last_eq in G. rewrite H in G. now inversion G.
    + rewrite get_last_eq in G. rewrite H in G. now inversion G.
Qed.

(** ** Runs that succeed *)








(** ** Runs that fail *)

(** C1: in a run of [migrate] whose work list is [pre ++ f :: post], in
    which the steps of [pre] are committed and leave the world [w2], and
    in which the transaction of [f] fails (its script raises, or the
    version update after it does), [migrate] raises; the database at the
    end is the database of [w2], so the stored version is the one the last
    committed step wrote; the trace ends with the events of the failed
    step, closed by a rollback, after those of the steps of [pre], so no
    file of [post] is read or executed.  The same holds of [downgrade]. *)
Theorem step_failure_rolls_back_and_halts
        (target v : string) (C T : Z) (w w1 w2 : world)
        (pre post : list string) (f : string)
        (target' v' : string) (C' T' n : Z) (x x1 x2 : world)
        (pre' post' : list string) (f' : string) :
  _get_last_migration_number w = (Ok v, w1) ->
  Py.int v = Some C -> Py.int target = Some T ->
  upgrade_files w C T = (pre ++ f :: post)%list ->
  for_each pre (upgrade_step run_sql) w1 = (Ok tt, w2) ->
  fails_in_transaction run_sql (contents (files w) f)
    (Py.take (Z.to_nat PLACES) f) (db w2) ->
  _get_last_migration_number x = (Ok v', x1) ->
  Py.int v' = Some C' -> Py.int target' = Some T' ->
  downgrade_files x C' T' = (pre' ++ f' :: post')%list ->
  for_each pre' (downgrade_step run_sql) x1 = (Ok tt, x2) ->
  version_of f' = Some n ->
  fails_in_transaction run_sql (contents (files x) f')
    (int_to_number (n - 1)) (db x2) ->
  (exists evs,
      failure_events f (contents (files w) f) (Py.take (Z.to_nat PLACES) f) evs
      /\ migrate run_sql target w
         = (Raise PostgresError,
            mkWorld (files w) (db w2) (now w)
              (trace w ++ flat_map (upgrade_events (files w)) pre ++ evs)))
  /\ (exists evs,
         failure_events f' (contents (files x) f') (int_to_number (n - 1)) evs
         /\ downgrade run_sql target' x
            = (Raise PostgresError,
               mkWorld (files x) (db x2) (now x)
                 (trace x ++ flat_map (downgrade_events (files x)) pre' ++ evs))).
Proof.
  intros G HC HT Hwork Hpre Hfail G' HC' HT' Hwork' Hpre' Hn Hfail'.
  split.
  - destruct (get_last_frame _ _ _ G) as (Hf & Hnow & Ht & _).
    assert (Hw1 : upgrade_files w1 C T = (pre ++ f :: post)%list)
      by (unfold upgrade_files, names in *; now rewrite Hf).
    destruct (upgrade_run_inv _ _ _ Hpre) as (Hf2 & Hn2 & Ht2).
    assert (Hin : In f (map fst (files w))).
    { assert (Hi : In f (upgrade_files w C T))
        by (rewrite Hwork; apply in_or_app; right; now left).
      apply in_selected in Hi. tauto. }
    destruct (lookup_in _ _ Hin) as [sql Hsql].
    rewrite (lookup_contents _ _ _ Hsql) in *.
    destruct (transact_fails w2 f sql _
                ("migration " ++ f ++ " executed successfully") Hfail)
      as (evs & Hev & Htr).
    exists evs. split; [assumption|].
    rewrite (migrate_eq _ _ _ _ _ _ G HC HT), Hw1.
    rewrite (for_each_app _ _ _ _ _ Hpre).
    apply for_each_raise. rewrite upgrade_step_eq.
    rewrite Hf2, Hf, Hsql, Htr. rewrite Hf2, Hf, Hn2, Hnow, Ht2, Ht, Hf.
    now rewrite <- app_assoc.
  - destruct (get_last_frame _ _ _ G') as (Hf & Hnow & Ht & _).
    assert (Hw1 : downgrade_files x1 C' T' = (pre' ++ f' :: post')%list)
      by (unfold downgrade_files, names in *; now rewrite Hf).
    destruct (downgrade_run_inv _ _ _ Hpre') as (Hf2 & Hn2 & Ht2).
    assert (Hin : In f' (map fst (files x))).
    { assert (Hi : In f' (downgrade_files x C' T'))
        by (rewrite Hwork'; apply in_or_app; right; now left).
      apply in_selected in Hi. tauto. }
    destruct (lookup_in _ _ Hin) as [sql Hsql].
    rewrite (lookup_contents _ _ _ Hsql) in *.
    destruct (transact_fails x2 f' sql _
                ("successfully executed " ++ f') Hfail')
      as (evs & Hev & Htr).
    exists evs. split; [assumption|].
    rewrite (downgrade_eq _ _ _ _ _ _ G' HC' HT'), Hw1.
    rewrite (for_each_app _ _ _ _ _ Hpre').
    apply for_each_raise. rewrite downgrade_step_eq.
    rewrite Hf2, Hf, Hsql, Hn, Htr. rewrite Hf2, Hf, Hn2, Hnow, Ht2, Ht, Hf.
    now rewrite <- app_assoc.
Qed.

(** ** Naming *)

Lemma keyed_inv (l : list string) :
  forall (w w' : world) ks,
    keyed l w = (Ok ks, w') ->
    w' = w /\ map fst ks = l
    /\ forall f k, In (f, k) ks -> version_of f = Some k.
Proof.
  induction l as [|x l IH]; intros w w' ks H; cbn [keyed] in H.
  - unfold ret in H. inversion H. subst. simpl. tauto.
  - unfold bind, int in H. fold (version_of x) in H.
    unfold raise, ret in H.
    destruct (version_of x) as [k|] eqn:E; cbv beta iota in H; [|discriminate].
    destruct (keyed l w) as [[ks'|e] w1] eqn:K; [|discriminate].
    inversion H. subst.
    destruct (IH _ _ _ K) as (-> & Hm & Hv).
    split; [reflexivity|]. split; [simpl; now rewrite Hm|].
    intros f j [Hin|Hin]; [inversion Hin; now subst|auto].
Qed.

Lemma keyed_ok (l : list string) (w : world) :
  (forall f, In f l -> exists k, version_of f = Some k) ->
  exists ks, keyed l w = (Ok ks, w).
Proof.
  induction l as [|x l IH]; intros H; cbn [keyed].
  - eexists. reflexivity.
  - destruct (H x (or_introl eq_refl)) as [k Hk].
    destruct IH as [ks Hks]; [intros f Hf; apply H; now right|].
    exists ((x, k) :: ks). unfold bind, int. fold (version_of x).
    rewrite Hk. unfold ret at 1. rewrite Hks. reflexivity.
Qed.

Lemma max_by_key_spec {A : Type} (l : list (A * Z)) :
  l <> [] ->
  exists x k,
    Py.max_by_key l = Some (x, k) /\ In (x, k) l
    /\ forall y j, In (y, j) l -> j <= k.
Proof.
  induction l as [|[x k] l IH]; intros Hne; [congruence|].
  destruct l as [|p l].
  - exists x, k. simpl. split; [reflexivity|]. split; [now left|].
    intros y j [H|[]]. inversion H. lia.
  - destruct IH as (y & j & Hmax & Hin & Hle); [discriminate|].
    cbn [Py.max_by_key]. cbn [Py.max_by_key] in Hmax. rewrite Hmax.
    destruct (j >? k) eqn:E.
    + exists y, j. split; [reflexivity|]. split; [now right|].
      intros z i [H|H]; [inversion H; lia|eauto].
    + exists x, k. split; [reflexivity|]. split; [now left|].
      intros z i [H|H]; [inversion H; lia|].
      specialize (Hle _ _ H). lia.
Qed.

Lemma resolve_label_eq (migration_name : option string) (w : world) :
  match migration_name with
  | None | Some EmptyString => fun w => (Ok ("auto_" ++ now w), w)
  | Some name => ret (Py.replace_space name)
  end w
  = (Ok (resolve_label migration_name w), w).
Proof. destruct migration_name as [[|c s]|]; reflexivity. Qed.


(** [__generate_name] that returns: the name is made of a number up to
    9999 and a label. *)
Lemma generate_name_inv (migration_name : option string) (w w' : world)
      (name : string) :
  __generate_name migration_name w = (Ok name, w') ->
  w' = w
  /\ exists number lab,
      name = int_to_number number ++ "_" ++ lab
      /\ -998 <= number <= 9999.
Proof.
  unfold __generate_name, bind, listdir.
  fold (names w). fold (sql_files w).
  destruct (sql_files w) as [|f0 l] eqn:E.
  - simpl. unfold ret. intros H. inversion H. subst.
    split; [reflexivity|]. exists 1, "initial". split; [reflexivity|lia].
  - cbn [List.length Nat.eqb]. rewrite resolve_label_eq.
    destruct (keyed (f0 :: l) w) as [[ks|e] w1] eqn:K; [|discriminate].
    destruct (keyed_inv _ _ _ _ K) as (-> & _ & Hv).
    destruct (Py.max_by_key ks) as [[prev k]|]; [|discriminate].
    unfold int. fold (version_of prev).
    destruct (version_of prev) as [n|] eqn:Hn; [|discriminate].
    unfold ret at 1.
    change (Py.int (Py.str_mul PLACES "9")) with (Some 9999). unfold ret at 1.
    destruct (n + 1 >? 9999) eqn:Hc; [discriminate|].
    unfold ret. intros H. inversion H. subst.
    split; [reflexivity|]. apply version_of_bound in Hn.
    exists (n + 1), (resolve_label migration_name w').
    split; [reflexivity|lia].
Qed.

(** [__generate_name] on a directory whose SQL files all carry a version,
    the highest of which is [m]. *)
Lemma generate_name_next (migration_name : option string) (w : world) (m : Z) :
  (forall f, In f (sql_files w) -> exists k, version_of f = Some k /\ k <= m) ->
  (exists f, In f (sql_files w) /\ version_of f = Some m) ->
  __generate_name migration_name w
  = if m + 1 >? 9999 then (Raise TooManyMigrations, w)
    else (Ok (int_to_number (m + 1) ++ "_" ++ resolve_label migration_name w), w).
Proof.
  intros Hall (fm & Hfm & Hm).
  unfold __generate_name, bind, listdir.
  fold (names w). fold (sql_files w).
  destruct (sql_files w) as [|f0 l] eqn:E; [destruct Hfm|].
  cbn [List.length Nat.eqb]. rewrite resolve_label_eq.
  destruct (keyed_ok (f0 :: l) w) as [ks K].
  { intros f Hf. destruct (Hall f Hf) as (k & Hk & _). eauto. }
  rewrite K. destruct (keyed_inv _ _ _ _ K) as (_ & Hfst & Hv).
  destruct (max_by_key_spec ks) as (prev & k & Hmax & Hin & Hle).
  { intros ->. discriminate. }
  rewrite Hmax. unfold int. fold (version_of prev).
  rewrite (Hv _ _ Hin). unfold ret at 1.
  change (Py.int (Py.str_mul PLACES "9")) with (Some 9999). unfold ret at 1.
  assert (k = m).
  { assert (Hk : k <= m).
    { assert (Hp : In prev (f0 :: l))
        by (rewrite <- Hfst; apply in_map_iff; exists (prev, k); auto).
      destruct (Hall _ Hp) as (j & Hj & Hjm).
      rewrite (Hv _ _ Hin) in Hj. inversion Hj. lia. }
    assert (Hmk : m <= k).
    { rewrite <- Hfst in Hfm. apply in_map_iff in Hfm.
      destruct Hfm as ([g j] & Hg & Hgin). simpl in Hg. subst g.
      rewrite (Hv _ _ Hgin) in Hm. inversion Hm. subst j. eauto. }
    lia. }
  subst k. destruct (m + 1 >? 9999); reflexivity.
Qed.






(** C7: on a directory whose SQL files all carry a version, the highest
    being 9999, [__generate_name] and [generate] raise the exception
    "Too many migrations" and leave the world, so the directory, as it
    was: no file is created.  And whenever [__generate_name] returns, the
    name starts with a number that is at most 9999, written on exactly
    four characters. *)
Theorem generate_ceiling (migration_name : option string) (w : world) :
  (forall f, In f (sql_files w) -> exists k, version_of f = Some k) ->
  (exists f, In f (sql_files w) /\ version_of f = Some 9999) ->
  __generate_name migration_name w = (Raise TooManyMigrations, w)
  /\ generate migration_name w = (Raise TooManyMigrations, w)
  /\ forall (any_name : option string) (w0 w0' : world) (name : string),
      __generate_name any_name w0 = (Ok name, w0') ->
      exists number lab,
        name = int_to_number number ++ "_" ++ lab
        /\ number <= 9999
        /\ String.length (int_to_number number) = 4%nat
        /\ Py.take (Z.to_nat PLACES) name = int_to_number number.
Proof.
  intros Hall Hmax.
  assert (Hn : __generate_name migration_name w = (Raise TooManyMigrations, w)).
  { rewrite (generate_name_next _ _ 9999); [reflexivity| |assumption].
    intros f Hf. destruct (Hall f Hf) as [k Hk]. exists k.
    split; [assumption|]. apply version_of_bound in Hk. lia. }
  split; [assumption|]. split.
  - unfold generate, bind. now rewrite Hn.
  - intros any_name w0 w0' name H. apply generate_name_inv in H.
    destruct H as (_ & number & lab & -> & Hr).
    assert (L : String.length (int_to_number number) = 4%nat)
      by (apply Nat.eqb_eq, wide_versions; assumption).
    exists number, lab. split; [reflexivity|]. split; [lia|].
    split; [assumption|]. now apply take_append.
Qed.

(** ** Targets *)


End Properties.

(** ** The scenarios of the specification, on the in-memory engine *)




(** Scenario E: the upgrade of 0002 raises; the stored version stays
    "0001" and 0003 is never attempted.  The same on the way down. *)
Lemma step_failure_scenario :
  (exists w',
      migrate Toy.engine "0003" (Toy.world_of Toy.broken_upgrade (Some ["0000"]))
      = (Raise PostgresError, w')
      /\ db w' = mkDb (Some ["0001"]) ["U1"])
  /\ (exists x',
         downgrade Toy.engine "0000"
           (Toy.world_of Toy.broken_downgrade (Some ["0003"]))
         = (Raise PostgresError, x')
         /\ db x' = mkDb (Some ["0002"]) ["D3"]).
Proof.
  pose (w := Toy.world_of Toy.broken_upgrade (Some ["0000"])).
  pose (x := Toy.world_of Toy.broken_downgrade (Some ["0003"])).
  destruct (step_failure_rolls_back_and_halts Toy.engine
              "0003" "0000" 0 3 w w
              (snd (upgrade_step Toy.engine "0001_a_upgrade.sql" w))
              ["0001_a_upgrade.sql"] ["0003_c_upgrade.sql"] "0002_b_upgrade.sql"
              "0000" "0003" 3 0 2 x x
              (snd (downgrade_step Toy.engine "0003_c_downgrade.sql" x))
              ["0003_c_downgrade.sql"] ["0001_a_downgrade.sql"]
              "0002_b_downgrade.sql")
    as [(evs & _ & Hm) (evs' & _ & Hd)];
    try reflexivity; try exact I.
  split; eexists; (split; [eassumption|reflexivity]).
Defined.



(** At version "0002", [migrate] to "0001" or "0002" and [downgrade] to
    "0002" or "0003" do nothing. *)
Lemma no_op_scenario :
  migrate Toy.engine "0001" (Toy.world_of Toy.three_pairs (Some ["0002"]))
  = (Ok tt, Toy.world_of Toy.three_pairs (Some ["0002"]))
  /\ downgrade Toy.engine "0003" (Toy.world_of Toy.three_pairs (Some ["0002"]))
     = (Ok tt, Toy.world_of Toy.three_pairs (Some ["0002"])).
Proof.
  pose (w := Toy.world_of Toy.three_pairs (Some ["0002"])).
  destruct (no_op_when_target_reached Toy.engine "0001" "0003" "0002" 2 1 3 w w)
    as (Hm & Hd & _); try reflexivity; try lia.
  split; [exact Hm|exact Hd].
Defined.


(** Property P5: at version "9999", [generate] raises and creates no
    file. *)
Lemma generate_ceiling_scenario :
  generate (Some "one more") (Toy.world_of Toy.up_to_9999 None)
  = (Raise TooManyMigrations, Toy.world_of Toy.up_to_9999 None).
Proof.
  pose (w := Toy.world_of Toy.up_to_9999 None).
  destruct (generate_ceiling Toy.engine (Some "one more") w) as (_ & Hg & _).
  - intros f Hf. vm_compute in Hf.
    repeat (destruct Hf as [Hf|Hf]; [subst f; exists 9999; reflexivity|]).
    contradiction.
  - exists "9999_z_upgrade.sql". split; [|reflexivity]. vm_compute. tauto.
  - exact Hg.
Defined.




(** * Further properties of the methods *)

(** ** [str], [int] and [__int_to_number] *)

Lemma digits_cons (acc : Z) (b : bool) (c : ascii) (l : list ascii) :
  Py.is_digit c = true ->
  Py.digits acc b (c :: l) = Py.digits (10 * acc + Py.digit_val c) true l.
Proof. intros H. cbn [Py.digits]. now rewrite H. Qed.

Lemma digits_uint_acc (d : Decimal.uint) :
  forall acc b,
    Py.digits (Zpos acc) b (list_ascii_of_string (NilEmpty.string_of_uint d))
    = match d with
      | Decimal.Nil => if b then Some (Zpos acc) else None
      | _ => Some (Zpos (Pos.of_uint_acc d acc))
      end.
Proof.
  induction d; intros acc b;
    cbn [NilEmpty.string_of_uint list_ascii_of_string Pos.of_uint_acc];
    try reflexivity;
    (rewrite digits_cons by reflexivity;
     match goal with
     | |- Py.digits ?z _ _ = Some (Zpos (Pos.of_uint_acc _ ?p)) =>
         replace z with (Zpos p) by (vm_compute Py.digit_val; lia)
     end;
     rewrite IHd; destruct d; reflexivity).
Qed.

Lemma digits_uint (d : Decimal.uint) :
  forall b, d <> Decimal.Nil \/ b = true ->
    Py.digits 0 b (list_ascii_of_string (NilEmpty.string_of_uint d))
    = Some (Z.of_N (Pos.of_uint d)).
Proof.
  induction d; intros b Hb;
    cbn [NilEmpty.string_of_uint list_ascii_of_string Pos.of_uint].
  - destruct Hb as [Hb| ->]; [congruence|reflexivity].
  - rewrite digits_cons by reflexivity. change (10 * 0 + Py.digit_val "0") with 0.
    apply IHd. now right.
  - rewrite digits_cons by reflexivity. change (10 * 0 + Py.digit_val "1") with 1.
    rewrite digits_uint_acc. now destruct d.
  - rewrite digits_cons by reflexivity. change (10 * 0 + Py.digit_val "2") with 2.
    rewrite digits_uint_acc. now destruct d.
  - rewrite digits_cons by reflexivity. change (10 * 0 + Py.digit_val "3") with 3.
    rewrite digits_uint_acc. now destruct d.
  - rewrite digits_cons by reflexivity. change (10 * 0 + Py.digit_val "4") with 4.
    rewrite digits_uint_acc. now destruct d.
  - rewrite digits_cons by reflexivity. change (10 * 0 + Py.digit_val "5") with 5.
    rewrite digits_uint_acc. now destruct d.
  - rewrite digits_cons by reflexivity. change (10 * 0 + Py.digit_val "6") with 6.
    rewrite digits_uint_acc. now destruct d.
  - rewrite digits_cons by reflexivity. change (10 * 0 + Py.digit_val "7") with 7.
    rewrite digits_uint_acc. now destruct d.
  - rewrite digits_cons by reflexivity. change (10 * 0 + Py.digit_val "8") with 8.
    rewrite digits_uint_acc. now destruct d.
  - rewrite digits_cons by reflexivity. change (10 * 0 + Py.digit_val "9") with 9.
    rewrite digits_uint_acc. now destruct d.
Qed.

Lemma uint_all_digits (d : Decimal.uint) :
  Forall (fun c => Py.is_digit c = true)
    (list_ascii_of_string (NilEmpty.string_of_uint d)).
Proof. induction d; cbn [NilEmpty.string_of_uint list_ascii_of_string]; constructor; auto. Qed.

Lemma digit_not_space (c : ascii) : Py.is_digit c = true -> Py.is_space c = false.
Proof.
  unfold Py.is_digit, Py.is_space. intros H.
  apply andb_true_iff in H. destruct H as [H1 H2].
  apply Nat.leb_le in H1, H2.
  apply orb_false_iff. split; apply andb_false_iff.
  - right. apply Nat.leb_gt. lia.
  - right. apply Nat.leb_gt. lia.
Qed.

Lemma lstrip_all (l : list ascii) :
  Forall (fun c => Py.is_space c = false) l -> Py.lstrip l = l.
Proof.
  intros H. destruct l as [|c l]; [reflexivity|].
  inversion H as [|? ? Hc _]; subst. simpl. now rewrite Hc.
Qed.

(** A string without whitespace is left as it is. *)
Lemma strip_all (l : list ascii) :
  Forall (fun c => Py.is_space c = false) l -> Py.strip l = l.
Proof.
  intros H. unfold Py.strip. rewrite (lstrip_all _ H).
  rewrite lstrip_all by now apply Forall_rev.
  apply rev_involutive.
Qed.

(** [int] on a string of digits. *)
Lemma int_digits (s : string) :
  s <> EmptyString ->
  Forall (fun c => Py.is_digit c = true) (list_ascii_of_string s) ->
  Py.int s = Py.digits 0 false (list_ascii_of_string s).
Proof.
  intros Hne H. unfold Py.int. rewrite strip_all.
  - destruct s as [|c s]; [congruence|]. cbn [list_ascii_of_string] in *.
    inversion H as [|? ? Hc _]; subst.
    destruct c as [[] [] [] [] [] [] [] []]; try discriminate Hc; reflexivity.
  - eapply Forall_impl; [|exact H]. intros c. apply digit_not_space.
Qed.

Lemma list_ascii_app (a b : string) :
  list_ascii_of_string (a ++ b)
  = (list_ascii_of_string a ++ list_ascii_of_string b)%list.
Proof. induction a as [|c a IH]; simpl; [reflexivity|now rewrite IH]. Qed.

Lemma zeros_digits (n : nat) :
  Forall (fun c => Py.is_digit c = true)
    (list_ascii_of_string (Py.repeat_nat n "0")).
Proof. induction n; simpl; constructor; auto. Qed.

Lemma digits_zeros (n : nat) (b : bool) (l : list ascii) :
  Py.digits 0 b (list_ascii_of_string (Py.repeat_nat n "0") ++ l)
  = Py.digits 0 (b || negb (Nat.eqb n 0)) l.
Proof.
  revert b. induction n as [|n IH]; intros b.
  - simpl. now rewrite orb_false_r.
  - cbn [Py.repeat_nat append list_ascii_of_string app].
    rewrite digits_cons by reflexivity. change (10 * 0 + Py.digit_val "0") with 0.
    rewrite IH. simpl. now rewrite orb_true_r.
Qed.

(** [str] of a natural number is a non-empty string of digits that [int]
    reads back. *)
Lemma str_nonneg (i : Z) :
  0 <= i ->
  Py.str i <> EmptyString
  /\ Forall (fun c => Py.is_digit c = true) (list_ascii_of_string (Py.str i))
  /\ forall b, Py.digits 0 b (list_ascii_of_string (Py.str i)) = Some i.
Proof.
  intros Hi. unfold Py.str. destruct i as [|p|p]; [| |lia].
  - split; [discriminate|]. split; [repeat constructor|]. intros b. reflexivity.
  - cbn [Z.to_int NilZero.string_of_int]. unfold NilZero.string_of_uint.
    pose proof (Unsigned.to_uint_nonnil p) as Hn.
    pose proof (Unsigned.of_to p) as Hof.
    destruct (Pos.to_uint p) eqn:E; try congruence;
      (split; [discriminate|]; split; [apply uint_all_digits|]; intros b;
       rewrite digits_uint by (left; discriminate); now rewrite Hof).
Qed.

Lemma int_to_number_nonneg (i : Z) : 0 <= i -> Py.int (int_to_number i) = Some i.
Proof.
  intros Hi. destruct (str_nonneg i Hi) as (Hne & Hd & Hv).
  unfold int_to_number, Py.str_mul. rewrite int_digits.
  - rewrite list_ascii_app, digits_zeros. apply Hv.
  - destruct (Py.repeat_nat _ _); [|discriminate]. simpl. exact Hne.
  - rewrite list_ascii_app. apply Forall_app. split; [apply zeros_digits|exact Hd].
Qed.

Lemma int_str_negative (p : positive) :
  Py.int (Py.str (Zneg p)) = Some (Zneg p)
  /\ (100 <= Zpos p -> (4 <= String.length (Py.str (Zneg p)))%nat).
Proof.
  unfold Py.str. cbn [Z.to_int NilZero.string_of_int].
  unfold NilZero.string_of_uint.
  pose proof (Unsigned.to_uint_nonnil p) as Hn.
  pose proof (Unsigned.of_to p) as Hof.
  assert (Hs : NilEmpty.string_of_uint (Pos.to_uint p)
               = match Pos.to_uint p with
                 | Decimal.Nil => "0"
                 | _ => NilEmpty.string_of_uint (Pos.to_uint p)
                 end) by (destruct (Pos.to_uint p); congruence).
  rewrite <- Hs.
  assert (Hd : Py.digits 0 false
                 (list_ascii_of_string (NilEmpty.string_of_uint (Pos.to_uint p)))
               = Some (Zpos p)).
  { rewrite digits_uint by now left. now rewrite Hof. }
  split.
  - unfold Py.int. cbn [list_ascii_of_string]. rewrite strip_all.
    + now rewrite Hd.
    + constructor; [reflexivity|].
      eapply Forall_impl; [|apply uint_all_digits]. intros c. apply digit_not_space.
  - intros Hp. apply digits_bound in Hd; [|lia]. cbn [String.length].
    rewrite <- list_ascii_length.
    remember (List.length (list_ascii_of_string
                             (NilEmpty.string_of_uint (Pos.to_uint p)))) as n.
    destruct n as [|[|[|n]]]; simpl in Hd; lia.
Qed.

Lemma repeat_nat_length (n : nat) :
  String.length (Py.repeat_nat n "0") = n.
Proof. induction n; simpl; [reflexivity|now rewrite IHn]. Qed.

Lemma padded_negatives :
  forall i, -99 <= i <= -1 -> Py.int (int_to_number i) = None.
Proof.
  intros i Hi.
  assert (H : (match Py.int (int_to_number i) with None => true | Some _ => false end)
              = true).
  { revert i Hi. apply forall_range. vm_compute. reflexivity. }
  now destruct (Py.int (int_to_number i)).
Qed.

(** X1: [__int_to_number] never truncates: its result has as many
    characters as [str(i)] has, and at least four; [int] reads it back as
    [i] for every integer except -99..-1, where the zeros are put in front
    of the sign and the result is no integer literal.  [int] reads
    [str(i)] back for every integer. *)
Theorem int_to_number_reads_back (i : Z) :
  Py.int (int_to_number i)
  = (if (-99 <=? i) && (i <=? -1) then None else Some i)
  /\ String.length (int_to_number i) = Nat.max 4 (String.length (Py.str i))
  /\ Py.int (Py.str i) = Some i.
Proof.
  assert (Hstr : Py.int (Py.str i) = Some i).
  { destruct i as [|p|p].
    - reflexivity.
    - destruct (str_nonneg (Zpos p)) as (Hne & Hd & Hv); [lia|].
      rewrite int_digits by assumption. apply Hv.
    - apply int_str_negative. }
  split; [|split; [|exact Hstr]].
  - destruct ((-99 <=? i) && (i <=? -1)) eqn:E.
    + apply andb_true_iff in E. destruct E as [E1 E2].
      apply Z.leb_le in E1, E2. now apply padded_negatives.
    + destruct (Z_le_gt_dec 0 i) as [Hi|Hi]; [now apply int_to_number_nonneg|].
      destruct i as [|p|p]; try lia.
      assert (Hp : 100 <= Zpos p).
      { apply andb_false_iff in E. destruct E as [E|E].
        - apply Z.leb_gt in E. lia.
        - apply Z.leb_gt in E. lia. }
      destruct (int_str_negative p) as [_ Hlen]. specialize (Hlen Hp).
      unfold int_to_number, Py.str_mul, Py.len, PLACES.
      replace (Z.to_nat (4 - Z.of_nat (String.length (Py.str (Zneg p))))) with O
        by lia.
      exact Hstr.
  - unfold int_to_number, Py.str_mul, Py.len, PLACES.
    rewrite append_length, repeat_nat_length. lia.
Qed.

(** ** Runs of [migrate] and [downgrade], whatever their outcome *)

Section Runs.

Context {D : Type}.
Variable run_sql : string -> @database D -> option (@database D).

Local Abbreviation world := (@world D).

(** The transaction of a step commits or is rolled back. *)
Lemma transact_cases (w : world) (f sql v msg : string) :
  (exists w',
      transact run_sql w f sql v msg = (Ok tt, w')
      /\ files w' = files w /\ now w' = now w
      /\ trace w' = (trace w ++ [ERead f; EBegin; EExecute sql; EUpdateVersion v;
                                 ECommit; EInfo msg])%list)
  \/ (exists evs,
         failure_events f sql v evs
         /\ transact run_sql w f sql v msg
            = (Raise PostgresError,
               mkWorld (files w) (db w) (now w) (trace w ++ evs))).
Proof.
  unfold transact, failure_events.
  destruct (run_sql sql (db w)) as [d'|]; [|right; eauto].
  destruct (option_map _ _) as [[rows|]|]; [left|right|right]; eauto 10.
Qed.

(** The last loop of [migrate]: a prefix of the list is committed; then
    the loop is over, or the transaction of the next file fails and the
    loop stops with the database of the last commit. *)
Lemma upgrade_loop_shape (fs : list (string * string)) (l : list string) :
  forall w : world,
    files w = fs ->
    (forall f, In f l -> In f (map fst fs)) ->
    exists done rest r w' wd,
      l = (done ++ rest)%list
      /\ for_each l (upgrade_step run_sql) w = (r, w')
      /\ for_each done (upgrade_step run_sql) w = (Ok tt, wd)
      /\ files w' = fs /\ now w' = now w /\ db w' = db wd
      /\ ((r = Ok tt /\ rest = []
           /\ trace w' = (trace w ++ flat_map (upgrade_events fs) done)%list)
          \/ (exists f post evs,
                 rest = f :: post /\ r = Raise PostgresError
                 /\ failure_events f (contents fs f)
                      (Py.take (Z.to_nat PLACES) f) evs
                 /\ trace w'
                    = (trace w ++ flat_map (upgrade_events fs) done ++ evs)%list)).
Proof.
  induction l as [|f l IH]; intros w Hfs Hin.
  - exists [], [], (Ok tt), w, w. simpl. rewrite app_nil_r. unfold ret.
    repeat split; auto.
  - destruct (lookup_in run_sql f fs) as [sql Hsql]; [apply Hin; now left|].
    pose proof (upgrade_step_eq run_sql f w) as Hstep.
    rewrite Hfs, Hsql in Hstep.
    destruct (transact_cases w f sql (Py.take (Z.to_nat PLACES) f)
                ("migration " ++ f ++ " executed successfully"))
      as [(w1 & Ht & Hf1 & Hn1 & Htr1)|(evs & Hev & Ht)];
      rewrite Ht in Hstep.
    + destruct (IH w1) as (done & rest & r & w' & wd & Hl & Hrun & Hdone
                           & Hf' & Hn' & Hdb & Hcase).
      { now rewrite Hf1. }
      { intros g Hg. apply Hin. now right. }
      exists (f :: done), rest, r, w', wd.
      split; [simpl; now rewrite Hl|].
      split; [simpl; unfold bind; now rewrite Hstep|].
      split; [simpl; unfold bind; now rewrite Hstep|].
      split; [assumption|]. split; [now rewrite Hn'|]. split; [assumption|].
      assert (Hev1 : upgrade_events fs f
                     = [ERead f; EBegin; EExecute sql;
                        EUpdateVersion (Py.take (Z.to_nat PLACES) f); ECommit;
                        EInfo ("migration " ++ f ++ " executed successfully")]).
      { unfold upgrade_events. now rewrite (lookup_contents _ _ _ Hsql). }
      destruct Hcase as [(-> & -> & Htr)|(g & post & evs & -> & -> & Hev & Htr)].
      * left. repeat split; auto. rewrite Htr, Htr1. cbn [flat_map].
        now rewrite Hev1, <- app_assoc.
      * right. exists g, post, evs. repeat split; auto.
        rewrite Htr, Htr1. cbn [flat_map]. now rewrite Hev1, <- !app_assoc.
    + exists [], (f :: l), (Raise PostgresError),
        (mkWorld (files w) (db w) (now w) (trace w ++ evs)), w.
      split; [reflexivity|].
      split; [now apply for_each_raise|].
      split; [reflexivity|]. split; [assumption|].
      split; [reflexivity|]. split; [reflexivity|].
      right. exists f, l, evs. rewrite (lookup_contents _ _ _ Hsql).
      repeat split; auto.
Qed.

(** The same for the last loop of [downgrade], where a step can also stop
    the loop with [ValueError], before any transaction, when the first
    characters of the file name are no integer. *)
Lemma downgrade_loop_shape (fs : list (string * string)) (l : list string) :
  forall w : world,
    files w = fs ->
    (forall f, In f l -> In f (map fst fs)) ->
    exists done rest r w' wd,
      l = (done ++ rest)%list
      /\ for_each l (downgrade_step run_sql) w = (r, w')
      /\ for_each done (downgrade_step run_sql) w = (Ok tt, wd)
      /\ files w' = fs /\ now w' = now w /\ db w' = db wd
      /\ ((r = Ok tt /\ rest = []
           /\ trace w' = (trace w ++ flat_map (downgrade_events fs) done)%list)
          \/ (exists f post evs,
                 rest = f :: post
                 /\ ((r = Raise PostgresError
                      /\ failure_events f (contents fs f) (version_below f) evs)
                     \/ (r = Raise ValueError /\ version_of f = None
                         /\ evs = [ERead f]))
                 /\ trace w'
                    = (trace w ++ flat_map (downgrade_events fs) done ++ evs)%list)).
Proof.
  induction l as [|f l IH]; intros w Hfs Hin.
  - exists [], [], (Ok tt), w, w. simpl. rewrite app_nil_r. unfold ret.
    repeat split; auto.
  - destruct (lookup_in run_sql f fs) as [sql Hsql]; [apply Hin; now left|].
    pose proof (downgrade_step_eq run_sql f w) as Hstep.
    rewrite Hfs, Hsql in Hstep.
    destruct (version_of f) as [n|] eqn:Hn.
    + assert (Hvb : version_below f = int_to_number (n - 1))
        by (unfold version_below; now rewrite Hn).
      destruct (transact_cases w f sql (int_to_number (n - 1))
                  ("successfully executed " ++ f))
        as [(w1 & Ht & Hf1 & Hn1 & Htr1)|(evs & Hev & Ht)];
        rewrite Ht in Hstep.
      * destruct (IH w1) as (done & rest & r & w' & wd & Hl & Hrun & Hdone
                             & Hf' & Hn' & Hdb & Hcase).
        { now rewrite Hf1. }
        { intros g Hg. apply Hin. now right. }
        exists (f :: done), rest, r, w', wd.
        split; [simpl; now rewrite Hl|].
        split; [simpl; unfold bind; now rewrite Hstep|].
        split; [simpl; unfold bind; now rewrite Hstep|].
        split; [assumption|]. split; [now rewrite Hn'|]. split; [assumption|].
        assert (Hev1 : downgrade_events fs f
                       = [ERead f; EBegin; EExecute sql;
                          EUpdateVersion (int_to_number (n - 1)); ECommit;
                          EInfo ("successfully executed " ++ f)]).
        { unfold downgrade_events.
          now rewrite (lookup_contents _ _ _ Hsql), Hvb. }
        destruct Hcase as [(-> & -> & Htr)|(g & post & evs & -> & Hr & Htr)].
        -- left. repeat split; auto. rewrite Htr, Htr1. cbn [flat_map].
           now rewrite Hev1, <- app_assoc.
        -- right. exists g, post, evs. repeat split; auto.
           rewrite Htr, Htr1. cbn [flat_map]. now rewrite Hev1, <- !app_assoc.
      * exists [], (f :: l), (Raise PostgresError),
          (mkWorld (files w) (db w) (now w) (trace w ++ evs)), w.
        split; [reflexivity|].
        split; [now apply for_each_raise|].
        split; [reflexivity|]. split; [assumption|].
        split; [reflexivity|]. split; [reflexivity|].
        right. exists f, l, evs. rewrite (lookup_contents _ _ _ Hsql), Hvb.
        repeat split; auto.
    + exists [], (f :: l), (Raise ValueError), (emit (ERead f) w), w.
      split; [reflexivity|].
      split; [now apply for_each_raise|].
      split; [reflexivity|]. split; [assumption|].
      split; [reflexivity|]. split; [reflexivity|].
      right. exists f, l, [ERead f]. repeat split; auto.
Qed.

(** X2: every run of [migrate] whose stored version and target are
    integers commits the files of a prefix [done] of its work list, in
    order, and then either returns normally with nothing left, or stops at
    the next file [f] with [PostgresError], the transaction of [f] rolled
    back (no other exception can leave the loop).  In both cases the
    database at the end is the one the steps of [done] leave, the
    directory is unchanged, and the trace holds the events of [done]
    followed by those of the failed step, if any: no file after [f] is
    opened. *)
Theorem migrate_commits_a_prefix (target v : string) (C T : Z) (w w1 : world) :
  _get_last_migration_number w = (Ok v, w1) ->
  Py.int v = Some C -> Py.int target = Some T ->
  exists done rest r w' wd,
    upgrade_files w C T = (done ++ rest)%list
    /\ migrate run_sql target w = (r, w')
    /\ for_each done (upgrade_step run_sql) w1 = (Ok tt, wd)
    /\ files w' = files w /\ db w' = db wd
    /\ ((r = Ok tt /\ rest = []
         /\ trace w'
            = (trace w ++ flat_map (upgrade_events (files w)) done)%list)
        \/ (exists f post evs,
               rest = f :: post /\ r = Raise PostgresError
               /\ failure_events f (contents (files w) f)
                    (Py.take (Z.to_nat PLACES) f) evs
               /\ trace w'
                  = (trace w ++ flat_map (upgrade_events (files w)) done
                       ++ evs)%list)).
Proof.
  intros G HC HT.
  destruct (get_last_frame run_sql _ _ _ G) as (Hf & _ & Ht & _).
  assert (Hwork : upgrade_files w1 C T = upgrade_files w C T)
    by (unfold upgrade_files, names; now rewrite Hf).
  destruct (upgrade_loop_shape (files w) (upgrade_files w C T) w1 Hf)
    as (done & rest & r & w' & wd & Hl & Hrun & Hdone & Hf' & _ & Hdb & Hcase).
  { intros f Hin. apply in_selected in Hin. tauto. }
  exists done, rest, r, w', wd.
  rewrite (migrate_eq run_sql _ _ _ _ _ _ G HC HT), Hwork, <- Ht.
  auto 10.
Qed.

(** X3: every run of [downgrade] whose stored version and target are
    integers commits the files of a prefix [done] of its work list, in
    order, and then either returns normally with nothing left, or stops at
    the next file [f]: with [PostgresError] and the transaction of [f]
    rolled back, or with [ValueError] before any transaction when the
    first four characters of [f] are no integer.  In every case the
    database at the end is the one the steps of [done] leave and the
    directory is unchanged. *)
Theorem downgrade_commits_a_prefix (target v : string) (C T : Z) (w w1 : world) :
  _get_last_migration_number w = (Ok v, w1) ->
  Py.int v = Some C -> Py.int target = Some T ->
  exists done rest r w' wd,
    downgrade_files w C T = (done ++ rest)%list
    /\ downgrade run_sql target w = (r, w')
    /\ for_each done (downgrade_step run_sql) w1 = (Ok tt, wd)
    /\ files w' = files w /\ db w' = db wd
    /\ ((r = Ok tt /\ rest = []
         /\ trace w'
            = (trace w ++ flat_map (downgrade_events (files w)) done)%list)
        \/ (exists f post evs,
               rest = f :: post
               /\ ((r = Raise PostgresError
                    /\ failure_events f (contents (files w) f)
                         (version_below f) evs)
                   \/ (r = Raise ValueError /\ version_of f = None
                       /\ evs = [ERead f]))
               /\ trace w'
                  = (trace w ++ flat_map (downgrade_events (files w)) done
                       ++ evs)%list)).
Proof.
  intros G HC HT.
  destruct (get_last_frame run_sql _ _ _ G) as (Hf & _ & Ht & _).
  assert (Hwork : downgrade_files w1 C T = downgrade_files w C T)
    by (unfold downgrade_files, names; now rewrite Hf).
  destruct (downgrade_loop_shape (files w) (downgrade_files w C T) w1 Hf)
    as (done & rest & r & w' & wd & Hl & Hrun & Hdone & Hf' & _ & Hdb & Hcase).
  { intros f Hin. apply in_selected in Hin. tauto. }
  exists done, rest, r, w', wd.
  rewrite (downgrade_eq run_sql _ _ _ _ _ _ G HC HT), Hwork, <- Ht.
  auto 10.
Qed.

Lemma get_last_total (w : world) :
  exists v w1,
    _get_last_migration_number w = (Ok v, w1)
    /\ files w1 = files w /\ now w1 = now w /\ trace w1 = trace w.
Proof.
  rewrite get_last_eq.
  destruct (migrations (db w)) as [[|v rows]|]; eauto 10.
Qed.

(** X4: whatever the target (an integer or not), the stored version, the
    scripts and the outcome, [migrate] and [downgrade] leave the migration
    directory and the clock as they are, and only add events to the
    trace. *)
Theorem runs_leave_the_directory_untouched (target : string) (w : world) :
  (files (snd (migrate run_sql target w)) = files w
   /\ now (snd (migrate run_sql target w)) = now w
   /\ exists evs, trace (snd (migrate run_sql target w)) = (trace w ++ evs)%list)
  /\ (files (snd (downgrade run_sql target w)) = files w
      /\ now (snd (downgrade run_sql target w)) = now w
      /\ exists evs,
          trace (snd (downgrade run_sql target w)) = (trace w ++ evs)%list).
Proof.
  destruct (get_last_total w) as (v & w1 & G & Hf & Hn & Ht).
  assert (Hnil : exists evs, trace w1 = (trace w ++ evs)%list)
    by (exists []; now rewrite app_nil_r).
  split.
  - unfold migrate, bind. rewrite G. unfold int.
    destruct (Py.int v) as [C|]; [|simpl; auto].
    destruct (Py.int target) as [T|]; [|simpl; auto].
    unfold ret. rewrite select_files_eq.
    destruct (upgrade_loop_shape (files w1) (selected "_upgrade.sql" (names w1)
                (map int_to_number (Py.range (C + 1) (T + 1)))) w1 eq_refl)
      as (done & rest & r & w' & wd & _ & Hrun & _ & Hf' & Hn' & _ & Hcase).
    { intros f Hin. apply in_selected in Hin. tauto. }
    rewrite Hrun. cbn [snd]. split; [congruence|]. split; [congruence|].
    destruct Hcase as [(_ & _ & Htr)|(f & post & evs & _ & _ & _ & Htr)];
      rewrite Htr, Ht; eauto.
  - unfold downgrade, bind. rewrite G. unfold int.
    destruct (Py.int v) as [C|]; [|simpl; auto].
    destruct (Py.int target) as [T|]; [|simpl; auto].
    unfold ret. rewrite select_files_eq.
    destruct (downgrade_loop_shape (files w1) (selected "_downgrade.sql" (names w1)
                (map int_to_number (Py.range_down C T))) w1 eq_refl)
      as (done & rest & r & w' & wd & _ & Hrun & _ & Hf' & Hn' & _ & Hcase).
    { intros f Hin. apply in_selected in Hin. tauto. }
    rewrite Hrun. cbn [snd]. split; [congruence|]. split; [congruence|].
    destruct Hcase as [(_ & _ & Htr)|(f & post & evs & _ & _ & Htr)];
      rewrite Htr, Ht; eauto.
Qed.

(** *** Runs that follow one another *)













(** *** Running again after a failure *)







(** *** Up and down again *)



End Runs.

(** ** Suffixes *)

Lemma substring_skip_more (a b : string) (n m : nat) :
  substring (String.length a + n) m (a ++ b) = substring n m b.
Proof. induction a as [|c a IH]; simpl; [reflexivity|assumption]. Qed.

(** Whether a string ends with [p] is decided by its last characters. *)
Lemma endswith_longer (a b p : string) :
  (String.length p <= String.length b)%nat ->
  Py.endswith (a ++ b) p = Py.endswith b p.
Proof.
  intros L. unfold Py.endswith. rewrite append_length.
  replace (String.length a + String.length b - String.length p)%nat
    with (String.length a + (String.length b - String.length p))%nat by lia.
  rewrite substring_skip_more.
  replace (String.length p <=? String.length a + String.length b)%nat with true
    by (symmetry; apply Nat.leb_le; lia).
  replace (String.length p <=? String.length b)%nat with true
    by (symmetry; apply Nat.leb_le; lia).
  reflexivity.
Qed.

Lemma substring_split (s : string) (n : nat) :
  (n <= String.length s)%nat ->
  s = substring 0 n s ++ substring n (String.length s - n) s.
Proof.
  revert n. induction s as [|c s IH]; intros n Hn.
  - destruct n; [reflexivity|simpl in Hn; lia].
  - destruct n as [|n].
    + simpl. now rewrite substring_all.
    + simpl. f_equal. apply IH. simpl in Hn. lia.
Qed.

Lemma endswith_inv (s p : string) :
  Py.endswith s p = true -> exists a, s = a ++ p.
Proof.
  unfold Py.endswith. intros H. apply andb_true_iff in H.
  destruct H as [L E]. apply Nat.leb_le in L. apply String.eqb_eq in E.
  exists (substring 0 (String.length s - String.length p) s).
  pose proof (substring_split s (String.length s - String.length p)) as H.
  replace (String.length s - (String.length s - String.length p))%nat
    with (String.length p) in H by lia.
  rewrite E in H. apply H. lia.
Qed.

(** A name that ends with "_upgrade.sql" or "_downgrade.sql" ends with
    ".sql", and no name ends with both. *)
Lemma script_suffixes (f : string) :
  (Py.endswith f "_upgrade.sql" = true -> Py.endswith f ".sql" = true)
  /\ (Py.endswith f "_downgrade.sql" = true -> Py.endswith f ".sql" = true)
  /\ (Py.endswith f "_upgrade.sql" = true ->
      Py.endswith f "_downgrade.sql" = false)
  /\ (Py.endswith f "_downgrade.sql" = true ->
      Py.endswith f "_upgrade.sql" = false).
Proof.
  repeat split; intros H; apply endswith_inv in H; destruct H as [a ->].
  - now rewrite endswith_longer by (simpl; lia).
  - now rewrite endswith_longer by (simpl; lia).
  - destruct (Py.endswith (a ++ "_upgrade.sql") "_downgrade.sql") eqn:E;
      [|reflexivity].
    apply endswith_inv in E. destruct E as [b E].
    assert (X : Py.endswith (b ++ "_downgrade.sql") "_upgrade.sql" = true)
      by (rewrite <- E; apply endswith_append).
    rewrite endswith_longer in X by (simpl; lia). discriminate.
  - now rewrite endswith_longer by (simpl; lia).
Qed.

(** ** [generate], whatever its outcome *)

Section Naming.

Context {D : Type}.
Variable run_sql : string -> @database D -> option (@database D).

Local Abbreviation world := (@world D).


Lemma keyed_raise (l : list string) (w : world) (f : string) :
  In f l -> version_of f = None -> keyed l w = (Raise ValueError, w).
Proof.
  induction l as [|x l IH]; intros Hin Hv; [destruct Hin|].
  cbn [keyed]. unfold bind, int. fold (version_of x).
  destruct (version_of x) as [k|] eqn:E.
  - unfold ret at 1. destruct Hin as [->|Hin]; [congruence|].
    now rewrite (IH Hin Hv).
  - reflexivity.
Qed.





(** X12: one file of the directory that ends with ".sql" and whose first
    four characters are no integer makes [__generate_name] and [generate]
    raise [ValueError], whatever the label and the other files; nothing is
    created. *)
Theorem generate_rejects_an_unreadable_prefix
        (migration_name : option string) (w : world) (f : string) :
  In f (sql_files w) -> version_of f = None ->
  __generate_name migration_name w = (Raise ValueError, w)
  /\ generate migration_name w = (Raise ValueError, w).
Proof.
  intros Hin Hv.
  assert (Hn : __generate_name migration_name w = (Raise ValueError, w)).
  { unfold __generate_name, bind, listdir.
    fold (names w). fold (sql_files w).
    destruct (sql_files w) as [|f0 l] eqn:E; [destruct Hin|].
    cbn [List.length Nat.eqb]. rewrite resolve_label_eq.
    now rewrite (keyed_raise (f0 :: l) w f Hin Hv). }
  split; [assumption|]. unfold generate, bind. now rewrite Hn.
Qed.

(** *** One [generate] after another, and the run that follows *)





End Naming.

(** ** What a run reads *)

Section Reads.

Context {D : Type}.
Variable run_sql : string -> @database D -> option (@database D).

Local Abbreviation world := (@world D).

Lemma read_in_upgrade_events (fs : list (string * string)) (g f : string) :
  In (ERead f) (upgrade_events fs g) -> f = g.
Proof.
  unfold upgrade_events. simpl.
  intros [H|[H|[H|[H|[H|[H|[]]]]]]]; now inversion H.
Qed.

Lemma read_in_downgrade_events (fs : list (string * string)) (g f : string) :
  In (ERead f) (downgrade_events fs g) -> f = g.
Proof.
  unfold downgrade_events. simpl.
  intros [H|[H|[H|[H|[H|[H|[]]]]]]]; now inversion H.
Qed.

Lemma read_in_failure_events (g sql v f : string) (evs : list event) :
  failure_events g sql v evs -> In (ERead f) evs -> f = g.
Proof.
  intros [->| ->]; simpl.
  - intros [H|[H|[H|[H|[]]]]]; now inversion H.
  - intros [H|[H|[H|[H|[H|[]]]]]]; now inversion H.
Qed.

(** X15: a run opens only scripts of its own direction.  Every file that
    a call of [migrate] reads is an entry of the directory that ends with
    "_upgrade.sql" and does not end with "_downgrade.sql"; every file that
    a call of [downgrade] reads ends with "_downgrade.sql" and not with
    "_upgrade.sql"; this for every target, stored version and outcome. *)
Theorem runs_read_only_their_own_scripts (target f : string) (w : world) :
  ~ In (ERead f) (trace w) ->
  (In (ERead f) (trace (snd (migrate run_sql target w))) ->
   In f (names w) /\ Py.endswith f "_upgrade.sql" = true
   /\ Py.endswith f "_downgrade.sql" = false)
  /\ (In (ERead f) (trace (snd (downgrade run_sql target w))) ->
      In f (names w) /\ Py.endswith f "_downgrade.sql" = true
      /\ Py.endswith f "_upgrade.sql" = false).
Proof.
  intros Hnew.
  destruct (get_last_total w) as (v & w1 & G & Hf & Hn & Ht).
  split.
  - unfold migrate, bind. rewrite G. unfold int.
    destruct (Py.int v) as [C|]; [|simpl; rewrite Ht; tauto].
    destruct (Py.int target) as [T|]; [|simpl; rewrite Ht; tauto].
    unfold ret. rewrite select_files_eq.
    set (work := selected "_upgrade.sql" (names w1)
                   (map int_to_number (Py.range (C + 1) (T + 1)))).
    assert (Hwork : forall g, In g work ->
                      In g (names w) /\ Py.endswith g "_upgrade.sql" = true
                      /\ Py.endswith g "_downgrade.sql" = false).
    { intros g Hg. apply in_selected in Hg. destruct Hg as (Hn' & He & _).
      unfold names in *. rewrite Hf in Hn'. repeat split; try assumption.
      now apply script_suffixes. }
    destruct (upgrade_loop_shape run_sql (files w1) work w1 eq_refl)
      as (done & rest & r & w' & wd & Hl & Hrun & _ & _ & _ & _ & Hcase).
    { intros g Hin. apply in_selected in Hin. tauto. }
    rewrite Hrun. cbn [snd]. intros Hread. apply Hwork. rewrite Hl.
    destruct Hcase as [(_ & _ & Htr)|(g & post & evs & -> & _ & Hev & Htr)];
      rewrite Htr, Ht in Hread; apply in_app_or in Hread;
      destruct Hread as [Hread|Hread]; try contradiction.
    + apply in_flat_map in Hread. destruct Hread as (g & Hg & Hr).
      apply read_in_upgrade_events in Hr. subst g. apply in_or_app. now left.
    + apply in_app_or in Hread. destruct Hread as [Hread|Hread].
      * apply in_flat_map in Hread. destruct Hread as (h & Hh & Hr).
        apply read_in_upgrade_events in Hr. subst h. apply in_or_app. now left.
      * apply (read_in_failure_events _ _ _ _ _ Hev) in Hread. subst g.
        apply in_or_app. right. now left.
  - unfold downgrade, bind. rewrite G. unfold int.
    destruct (Py.int v) as [C|]; [|simpl; rewrite Ht; tauto].
    destruct (Py.int target) as [T|]; [|simpl; rewrite Ht; tauto].
    unfold ret. rewrite select_files_eq.
    set (work := selected "_downgrade.sql" (names w1)
                   (map int_to_number (Py.range_down C T))).
    assert (Hwork : forall g, In g work ->
                      In g (names w) /\ Py.endswith g "_downgrade.sql" = true
                      /\ Py.endswith g "_upgrade.sql" = false).
    { intros g Hg. apply in_selected in Hg. destruct Hg as (Hn' & He & _).
      unfold names in *. rewrite Hf in Hn'. repeat split; try assumption.
      now apply script_suffixes. }
    destruct (downgrade_loop_shape run_sql (files w1) work w1 eq_refl)
      as (done & rest & r & w' & wd & Hl & Hrun & _ & _ & _ & _ & Hcase).
    { intros g Hin. apply in_selected in Hin. tauto. }
    rewrite Hrun. cbn [snd]. intros Hread. apply Hwork. rewrite Hl.
    destruct Hcase as [(_ & _ & Htr)|(g & post & evs & -> & Hr & Htr)];
      rewrite Htr, Ht in Hread; apply in_app_or in Hread;
      destruct Hread as [Hread|Hread]; try contradiction.
    + apply in_flat_map in Hread. destruct Hread as (g & Hg & Hr).
      apply read_in_downgrade_events in Hr. subst g. apply in_or_app. now left.
    + apply in_app_or in Hread. destruct Hread as [Hread|Hread].
      * apply in_flat_map in Hread. destruct Hread as (h & Hh & Hr').
        apply read_in_downgrade_events in Hr'. subst h.
        apply in_or_app. now left.
      * assert (f = g).
        { destruct Hr as [(_ & Hev)|(_ & _ & ->)].
          - now apply (read_in_failure_events _ _ _ _ _ Hev).
          - destruct Hread as [H|[]]. now inversion H. }
        subst g. apply in_or_app. right. now left.
Qed.

End Reads.

(** ** The further properties on the in-memory engine *)

Lemma migrate_prefix_example :
  exists done rest r w',
    upgrade_files (Toy.world_of Toy.broken_upgrade (Some ["0000"])) 0 3
    = (done ++ rest)%list
    /\ migrate Toy.engine "0003" (Toy.world_of Toy.broken_upgrade (Some ["0000"]))
       = (r, w')
    /\ files w' = Toy.broken_upgrade.
Proof.
  pose (w := Toy.world_of Toy.broken_upgrade (Some ["0000"])).
  destruct (migrate_commits_a_prefix Toy.engine "0003" "0000" 0 3 w w)
    as (done & rest & r & w' & wd & Hl & Hm & _ & Hf & _); try reflexivity.
  exists done, rest, r, w'. split; [exact Hl|]. split; [exact Hm|exact Hf].
Defined.

Lemma downgrade_prefix_example :
  exists done rest r w',
    downgrade_files (Toy.world_of Toy.broken_downgrade (Some ["0003"])) 3 0
    = (done ++ rest)%list
    /\ downgrade Toy.engine "0000"
         (Toy.world_of Toy.broken_downgrade (Some ["0003"]))
       = (r, w')
    /\ files w' = Toy.broken_downgrade.
Proof.
  pose (w := Toy.world_of Toy.broken_downgrade (Some ["0003"])).
  destruct (downgrade_commits_a_prefix Toy.engine "0000" "0003" 3 0 w w)
    as (done & rest & r & w' & wd & Hl & Hm & _ & Hf & _); try reflexivity.
  exists done, rest, r, w'. split; [exact Hl|]. split; [exact Hm|exact Hf].
Defined.







Lemma stray_sql_example :
  generate (Some "next") (Toy.world_of Toy.stray_sql None)
  = (Raise ValueError, Toy.world_of Toy.stray_sql None).
Proof.
  pose (w := Toy.world_of Toy.stray_sql None).
  destruct (generate_rejects_an_unreadable_prefix (Some "next") w "readme.sql")
    as [_ Hg]; [vm_compute; tauto|reflexivity|exact Hg].
Defined.




Lemma reads_example :
  In (ERead "0001_a_upgrade.sql")
    (trace (snd (migrate Toy.engine "0002"
                   (Toy.world_of Toy.three_pairs (Some ["0000"])))))
  /\ Py.endswith "0001_a_upgrade.sql" "_upgrade.sql" = true
  /\ Py.endswith "0001_a_upgrade.sql" "_downgrade.sql" = false.
Proof.
  pose (w := Toy.world_of Toy.three_pairs (Some ["0000"])).
  assert (Hin : In (ERead "0001_a_upgrade.sql")
                  (trace (snd (migrate Toy.engine "0002" w))))
    by (vm_compute; tauto).
  destruct (runs_read_only_their_own_scripts Toy.engine "0002"
              "0001_a_upgrade.sql" w) as [Hm _].
  - intros [].
  - split; [exact Hin|]. apply Hm. exact Hin.
Defined.

(** ** The single row *)

Section SingleRow.

Context {D : Type}.
Variable run_sql : string -> @database D -> option (@database D).

Local Abbreviation world := (@world D).

(** The scripts do not write to the [migrations] table. *)
Hypothesis table_left_alone :
  forall sql d d', run_sql sql d = Some d' -> migrations d' = migrations d.

Lemma transact_keeps_row (w w1 : world) (f sql v msg : string) :
  transact run_sql w f sql v msg = (Ok tt, w1) ->
  one_row (db w) -> one_row (db w1).
Proof.
  unfold transact. intros H [x Hx].
  destruct (run_sql sql (db w)) as [d'|] eqn:R; [|discriminate].
  rewrite (table_left_alone _ _ _ R), Hx in H. cbn [option_map update_rows] in H.
  destruct (String.length v <=? 4)%nat; [|discriminate].
  inversion H. subst. exists v. reflexivity.
Qed.

Lemma upgrade_loop_keeps_row (l : list string) :
  forall w wd : world,
    for_each l (upgrade_step run_sql) w = (Ok tt, wd) ->
    one_row (db w) -> one_row (db wd).
Proof.
  induction l as [|f l IH]; intros w wd H Hrow; simpl in H.
  - unfold ret in H. inversion H. now subst.
  - unfold bind in H.
    destruct (upgrade_step run_sql f w) as [[[]|e] w1] eqn:Hstep; [|discriminate].
    rewrite upgrade_step_eq in Hstep.
    destruct (lookup f (files w)); [|discriminate].
    apply (IH _ _ H). exact (transact_keeps_row _ _ _ _ _ _ Hstep Hrow).
Qed.

Lemma downgrade_loop_keeps_row (l : list string) :
  forall w wd : world,
    for_each l (downgrade_step run_sql) w = (Ok tt, wd) ->
    one_row (db w) -> one_row (db wd).
Proof.
  induction l as [|f l IH]; intros w wd H Hrow; simpl in H.
  - unfold ret in H. inversion H. now subst.
  - unfold bind in H.
    destruct (downgrade_step run_sql f w) as [[[]|e] w1] eqn:Hstep; [|discriminate].
    rewrite downgrade_step_eq in Hstep.
    destruct (lookup f (files w)); [|discriminate].
    destruct (version_of f); [|discriminate].
    apply (IH _ _ H). exact (transact_keeps_row _ _ _ _ _ _ Hstep Hrow).
Qed.

(** X16: the schema contract is an invariant.  When the [migrations]
    table is absent, empty or holds one row, and the scripts do not write
    to it, it holds exactly one row after [_get_last_migration_number],
    after [migrate] and after [downgrade], for every target and every
    outcome, failures included. *)
Theorem the_single_row_is_kept (target : string) (w : world) :
  at_most_one_row (db w) ->
  one_row (db (snd (_get_last_migration_number w)))
  /\ one_row (db (snd (migrate run_sql target w)))
  /\ one_row (db (snd (downgrade run_sql target w))).
Proof.
  intros Hrows.
  destruct (get_last_total w) as (v & w1 & G & Hf & _).
  destruct (get_last_frame run_sql _ _ _ G) as (_ & _ & _ & _ & Hrow).
  specialize (Hrow Hrows).
  assert (H1 : one_row (db w1)) by (unfold one_row; eauto).
  split; [now rewrite G|]. split.
  - unfold migrate, bind. rewrite G. unfold int.
    destruct (Py.int v) as [C|]; [|exact H1].
    destruct (Py.int target) as [T|]; [|exact H1].
    unfold ret. rewrite select_files_eq.
    destruct (upgrade_loop_shape run_sql (files w1)
                (selected "_upgrade.sql" (names w1)
                   (map int_to_number (Py.range (C + 1) (T + 1)))) w1 eq_refl)
      as (done & rest & r & w' & wd & _ & Hrun & Hdone & _ & _ & Hdb & _).
    { intros f Hin. apply in_selected in Hin. tauto. }
    rewrite Hrun. cbn [snd]. rewrite Hdb.
    exact (upgrade_loop_keeps_row _ _ _ Hdone H1).
  - unfold downgrade, bind. rewrite G. unfold int.
    destruct (Py.int v) as [C|]; [|exact H1].
    destruct (Py.int target) as [T|]; [|exact H1].
    unfold ret. rewrite select_files_eq.
    destruct (downgrade_loop_shape run_sql (files w1)
                (selected "_downgrade.sql" (names w1)
                   (map int_to_number (Py.range_down C T))) w1 eq_refl)
      as (done & rest & r & w' & wd & _ & Hrun & Hdone & _ & _ & Hdb & _).
    { intros f Hin. apply in_selected in Hin. tauto. }
    rewrite Hrun. cbn [snd]. rewrite Hdb.
    exact (downgrade_loop_keeps_row _ _ _ Hdone H1).
Qed.

End SingleRow.

Lemma single_row_example :
  one_row (db (snd (migrate Toy.engine "0003"
                      (Toy.world_of Toy.broken_upgrade None))))
  /\ one_row (db (snd (downgrade Toy.engine "0000"
                         (Toy.world_of Toy.broken_downgrade (Some ["0003"]))))).
Proof.
  split.
  - apply (the_single_row_is_kept Toy.engine); [|exact I].
    intros sql d d' H. unfold Toy.engine in H.
    destruct (Py.startswith sql "RAISE"); [discriminate|].
    inversion H. reflexivity.
  - apply (the_single_row_is_kept Toy.engine); [|exact I].
    intros sql d d' H. unfold Toy.engine in H.
    destruct (Py.startswith sql "RAISE"); [discriminate|].
    inversion H. reflexivity.
Defined.
